(** * SecureModelHub frontend: request orchestration

    A shallow embedding of the asynchronous request code of the
    SecureModelHub frontend (frontend/contribute.js and frontend/app.js)
    and the properties of its retry policy, detail fetcher, detail cache
    and search/list flows.

    Conventions of the embedding.
    - An [async] function is a function from the outcomes of the network
      calls it awaits to the list of effects it performs, in program order,
      paired with the way its promise settles ([Fulfilled] / [Rejected]).
    - A JavaScript string is a [string]; a character is one code unit below
      256.  HTTP status codes are integers ([Z]).
    - A value obtained from [JSON.parse] is a [JSValue].  JavaScript numbers
      are kept abstract behind the class [JSNumber]; [Z] is an instance. *)

From Stdlib Require Import ZArith Ascii DecimalString.
From stdpp Require Import base strings list gmap.

Local Open Scope Z_scope.
#[local] Set Warnings "-register-all".

(** ** JavaScript values *)

(** What the code needs to know about a JavaScript number: its string
    conversion (template literals), whether it is [=== 0] and whether it is
    NaN (the falsy numbers are 0 and NaN). *)
Class JSNumber (number : Type) := {
  Number_toString : number → string;
  Number_isZero : number → bool;
  Number_isNaN : number → bool
}.

(** Decimal rendering of an integer, as [String(n)] gives for integers. *)
Definition Z_toString (z : Z) : string := NilZero.string_of_int (Z.to_int z).

#[export] Instance Z_JSNumber : JSNumber Z := {|
  Number_toString := Z_toString;
  Number_isZero := Z.eqb 0;
  Number_isNaN := λ _, false
|}.

(** Values as [JSON.parse] builds them, plus [undefined].  The properties of
    a [JObject] are listed in the order in which [Object.values] enumerates
    them, each key once. *)
Inductive JSValue (number : Type) : Type :=
| JUndefined
| JNull
| JBool (b : bool)
| JNumber (n : number)
| JString (s : string)
| JArray (elems : list (JSValue number))
| JObject (props : list (string * JSValue number)).

Arguments JUndefined {number}.
Arguments JNull {number}.
Arguments JBool {number} b.
Arguments JNumber {number} n.
Arguments JString {number} s.
Arguments JArray {number} elems.
Arguments JObject {number} props.

(** A thrown value.  Every throw in the modelled code is an [Error] object or
    one of the built-in subclasses; only the class and the message matter. *)
Inductive ErrorClass := Error | TypeError | SyntaxError | ReferenceError.

Record JSError := mkError { error_class : ErrorClass; message : string }.

(** The errors the engine throws by itself, where the code has no [throw].
    The text of their messages is left to the implementation and differs
    from one engine to the next, so it is a parameter of the model. *)
Inductive Fault :=
| ReadOfNullish             (* a property read on [null] or [undefined] *)
| NotAFunction              (* a call of a value that is not a function *)
| NoPrimitiveForm           (* a conversion of an object that has none *)
| NotAnObject               (* [Object.values] of [null] or [undefined] *)
| NotJSON                   (* the parse of a body that is not JSON *)
| NotDefined (ident : string).  (* a free identifier nothing binds *)

Class Engine := { Fault_message : Fault → string }.

Definition thrown `{Engine} (class : ErrorClass) (fault : Fault) : JSError :=
  mkError class (Fault_message fault).

(** An engine for the examples. *)
#[export] Instance Sample_Engine : Engine := {|
  Fault_message fault :=
    match fault with
    | ReadOfNullish => "Cannot read properties of undefined"
    | NotAFunction => "is not a function"
    | NoPrimitiveForm => "Cannot convert object to primitive value"
    | NotAnObject => "Cannot convert undefined or null to object"
    | NotJSON => "Unexpected token in JSON"
    | NotDefined ident => ident +:+ " is not defined"
    end
|}.

(** How an awaited promise (or a call) completes. *)
Inductive Settled (A : Type) : Type :=
| Fulfilled (a : A)
| Rejected (e : JSError).

Arguments Fulfilled {A} a.
Arguments Rejected {A} e.

Definition rejects {A} (s : Settled A) : Prop :=
  match s with
  | Rejected _ => True
  | Fulfilled _ => False
  end.

Section Values.
Context {number : Type} `{JSNumber number} {engine : Engine}.

(** [x === undefined || x === null] *)
Definition nullish (v : JSValue number) : bool :=
  match v with JUndefined | JNull => true | _ => false end.

(** ToBoolean *)
Definition truthy (v : JSValue number) : bool :=
  match v with
  | JUndefined | JNull => false
  | JBool b => b
  | JNumber n => negb (Number_isZero n || Number_isNaN n)
  | JString s => negb (String.eqb s "")
  | JArray _ | JObject _ => true
  end.

(** [a ?? b] and [a || b] *)
Definition coalesce (a b : JSValue number) : JSValue number :=
  if nullish a then b else a.

Definition js_or (a b : JSValue number) : JSValue number :=
  if truthy a then a else b.

(** [Array.prototype.join] on already converted elements. *)
Fixpoint join (sep : string) (l : list string) : string :=
  match l with
  | [] => ""
  | [s] => s
  | s :: rest => s +:+ sep +:+ join sep rest
  end.

(** The object has an own property named [k]. *)
Definition has_own (k : string) (props : list (string * JSValue number))
  : bool :=
  existsb (λ kv, String.eqb k kv.1) props.

(** ToString, as applied by template literals, [String(v)] and the setters
    of [textContent] and [dataset].  An object is converted by its
    [toString] method: the inherited one gives ["[object Object]"], but an
    own property [toString], which is never a function in a parsed value,
    hides it, [valueOf] then returns the object itself and the conversion
    throws a [TypeError].  An array is converted by [join], which converts
    its elements from left to right, [null] to the empty string. *)
Fixpoint ToString (v : JSValue number) : Settled string :=
  match v with
  | JUndefined => Fulfilled "undefined"
  | JNull => Fulfilled "null"
  | JBool true => Fulfilled "true"
  | JBool false => Fulfilled "false"
  | JNumber n => Fulfilled (Number_toString n)
  | JString s => Fulfilled s
  | JArray elems =>
      match
        (fix each (l : list (JSValue number)) : Settled (list string) :=
           match l with
           | [] => Fulfilled []
           | e :: rest =>
               match (if nullish e then Fulfilled "" else ToString e) with
               | Rejected err => Rejected err
               | Fulfilled s =>
                   match each rest with
                   | Rejected err => Rejected err
                   | Fulfilled ss => Fulfilled (s :: ss)
                   end
               end
           end) elems
      with
      | Fulfilled ss => Fulfilled (join "," ss)
      | Rejected err => Rejected err
      end
  | JObject props =>
      if has_own "toString" props
      then Rejected (thrown TypeError NoPrimitiveForm)
      else Fulfilled "[object Object]"
  end.

Fixpoint assoc (k : string) (props : list (string * JSValue number))
  : JSValue number :=
  match props with
  | [] => JUndefined
  | (k', v) :: rest => if String.eqb k k' then v else assoc k rest
  end.

(** [v.k] for a non-nullish [v] and a key [k] that no prototype defines
    (the code reads [net_score], [total_cost], [metadata], [name], [id],
    [type]): an own property of an object, [undefined] on anything else. *)
Definition Get (v : JSValue number) (k : string) : JSValue number :=
  match v with
  | JObject props => assoc k props
  | _ => JUndefined
  end.

(** [v.k] with the [TypeError] of a nullish receiver. *)
Definition member (v : JSValue number) (k : string)
  : Settled (JSValue number) :=
  if nullish v
  then Rejected (thrown TypeError ReadOfNullish)
  else Fulfilled (Get v k).

(** [v?.k] *)
Definition opt_member (v : JSValue number) (k : string) : JSValue number :=
  if nullish v then JUndefined else Get v k.

(** [Object.values(v)]: throws on [undefined] and [null]; the elements of
    an array; the property values of an object; the one-character strings
    of a string; nothing for a boolean or a number. *)
Definition Object_values (v : JSValue number)
  : Settled (list (JSValue number)) :=
  match v with
  | JUndefined | JNull =>
      Rejected (thrown TypeError NotAnObject)
  | JBool _ | JNumber _ => Fulfilled []
  | JString s =>
      Fulfilled (map (λ c, JString (String c EmptyString))
                     (String.list_ascii_of_string s))
  | JArray elems => Fulfilled elems
  | JObject props => Fulfilled (map snd props)
  end.

(** [arr[0]] *)
Definition first (l : list (JSValue number)) : JSValue number :=
  match l with [] => JUndefined | v :: _ => v end.
End Values.

(** ** The network *)

(** A response of the Fetch API.  [text] is what [response.text()] resolves
    with, [json] what [response.json()] resolves with, [None] when the body
    is not JSON and the call rejects with a [SyntaxError]. *)
Record Response {number : Type} := mkResponse {
  status : Z;
  statusText : string;
  text : string;
  json : option (JSValue number)
}.
Arguments Response number : clear implicits.
Arguments mkResponse {number} status statusText text json.

(** [response.ok] *)
Definition ok {number} (r : Response number) : bool :=
  (200 <=? status r) && (status r <=? 299).

(** [fetch] either resolves with a response, whatever its status, or
    rejects when no response was obtained. *)
Inductive FetchOutcome (number : Type) : Type :=
| Responded (r : Response number)
| Failed (e : JSError).
Arguments Responded {number} r.
Arguments Failed {number} e.

(** [res.json()] *)
Definition Response_json {number} `{Engine} (r : Response number)
  : Settled (JSValue number) :=
  match json r with
  | Some v => Fulfilled v
  | None => Rejected (thrown SyntaxError NotJSON)
  end.

(** The arguments of one [fetch] call; [req_body] is the value handed to
    [JSON.stringify]. *)
Record Request {number : Type} := mkRequest {
  req_method : string;
  req_url : string;
  req_headers : list (string * string);
  req_body : option (JSValue number)
}.
Arguments Request number : clear implicits.
Arguments mkRequest {number} req_method req_url req_headers req_body.

Definition API_BASE_URL : string :=
  "https://moy7eewxxe.execute-api.us-east-2.amazonaws.com/main".

(** ** Strings *)

(** The double-quote character, for markup and messages that contain it. *)
Definition dq : string := String (Ascii.ascii_of_nat 34) EmptyString.

(** WhiteSpace and LineTerminator code units below 256: TAB, LF, VT, FF, CR,
    SP and NBSP. *)
Definition is_white_space (c : Ascii.ascii) : bool :=
  let n := Ascii.nat_of_ascii c in
  ((9 <=? n) && (n <=? 13) || (n =? 32) || (n =? 160))%nat.

Fixpoint trimStart (s : string) : string :=
  match s with
  | EmptyString => EmptyString
  | String c rest => if is_white_space c then trimStart rest else s
  end.

(** The string is empty or made of white space only. *)
Fixpoint whitespace_only (s : string) : bool :=
  match s with
  | EmptyString => true
  | String c rest => is_white_space c && whitespace_only rest
  end.

(** The last code unit of a string. *)
Fixpoint last_char (s : string) : option ascii :=
  match s with
  | EmptyString => None
  | String c EmptyString => Some c
  | String _ rest => last_char rest
  end.

(** [String.prototype.trim] *)
Definition trim (s : string) : string :=
  String.rev (trimStart (String.rev (trimStart s))).

(** ** Effects and completions

    A computation performs a list of effects and then returns or throws. *)
Definition M (E A : Type) : Type := list E * Settled A.

Definition ret {E A} (a : A) : M E A := ([], Fulfilled a).
Definition throw {E A} (e : JSError) : M E A := ([], Rejected e).
Definition emit {E} (ev : E) : M E unit := ([ev], Fulfilled tt).
Definition lift {E A} (s : Settled A) : M E A := ([], s).

(** A call to an [async] function that is not awaited: its effects happen,
    its completion is dropped. *)
Definition spawn {E A} (m : M E A) : M E unit := (m.1, Fulfilled tt).

Definition bind {E A B} (m : M E A) (k : A → M E B) : M E B :=
  match m with
  | (t, Fulfilled a) => let '(t', r) := k a in (t ++ t', r)
  | (t, Rejected e) => (t, Rejected e)
  end.

(** [try { body } catch (error) { handler }] *)
Definition try_catch {E A} (body : M E A) (handler : JSError → M E A)
  : M E A :=
  match body with
  | (t, Rejected e) => let '(t', r) := handler e in (t ++ t', r)
  | (t, Fulfilled a) => (t, Fulfilled a)
  end.

(** [try { body } finally { fin }]: [fin] runs on every exit of [body] and
    keeps the completion of [body] unless it throws itself. *)
Definition try_finally {E A} (body : M E A) (fin : M E unit) : M E A :=
  let '(t, r) := body in
  match fin with
  | (t', Fulfilled _) => (t ++ t', r)
  | (t', Rejected e) => (t ++ t', Rejected e)
  end.

Declare Scope js_scope.
Delimit Scope js_scope with js.
Notation "'let*' x ':=' m 'in' k" := (bind m (λ x, k))
  (at level 10, x name, m at level 100, k at level 200) : js_scope.
Notation "m ;; k" := (bind m (λ _, k))
  (at level 100, k at level 200, right associativity) : js_scope.
Local Open Scope js_scope.

(** * contribute.js *)
Module Contribute.

Section Contribute.
Context {number : Type} `{JSNumber number} {engine : Engine}.

Inductive Effect :=
| Fetch (attempt : nat) (req : Request number)
    (* fetch(url, options) of loop iteration [attempt] *)
| SetTimeout (delay : Z)
| SubmitDisabled (b : bool)          (* submitButton.disabled = b *)
| SubmitHTML (html : string)         (* submitButton.innerHTML = html *)
| MessageText (s : string)           (* messageContainer.textContent = s *)
| MessageClass (cls : string)        (* messageContainer.className = cls *)
| ConsoleError (error : JSError).

(** [showMessage(text, isError = false)] *)
Definition showMessage (s : string) (isError : bool) : M Effect unit :=
  emit (MessageText s);;
  emit (MessageClass (if isError then "message-container error"
                      else "message-container success")).

(** [errorBody || response.statusText] *)
Definition string_or (a b : string) : string :=
  if String.eqb a "" then b else a.

(** The four statuses tested at line 39. *)
Definition not_retriable (st : Z) : bool :=
  (st =? 400) || (st =? 403) || (st =? 409) || (st =? 424).

(** The body of the [try] block of the loop, from the outcome of the
    awaited [fetch] to the way the block completes: a [return] or a
    [throw]. *)
Definition try_block (o : FetchOutcome number) : Settled (Response number) :=
  match o with
  | Failed e => Rejected e
  | Responded response =>
      if ok response then Fulfilled response
      else if not_retriable (status response) then
        Rejected (mkError Error
          ("API Error (" +:+ Z_toString (status response) +:+ "): "
             +:+ string_or (text response) (statusText response)))
      else
        Rejected (mkError Error
          ("HTTP Error: " +:+ Z_toString (status response) +:+ " "
             +:+ statusText response))
  end.

(** [Math.pow(2, attempt) * 1000].  The product is an integer that a double
    holds exactly for every [attempt] up to 1014; the model keeps the
    integer. *)
Definition backoff (attempt : nat) : Z := 2 ^ Z.of_nat attempt * 1000.

(** The [for] loop over the remaining values of [attempt].  The [catch]
    clause encloses every [throw] of the [try] block.  When the loop ends
    without a [return] the function returns [undefined] ([None]). *)
Fixpoint retry_loop (net : nat → FetchOutcome number) (req : Request number)
    (maxRetries : nat) (attempts : list nat)
  : M Effect (option (Response number)) :=
  match attempts with
  | [] => ([], Fulfilled None)
  | attempt :: rest =>
      match try_block (net attempt) with
      | Fulfilled response => ([Fetch attempt req], Fulfilled (Some response))
      | Rejected error =>
          if (attempt =? maxRetries - 1)%nat
          then ([Fetch attempt req], Rejected error)
          else
            let '(effects, result) := retry_loop net req maxRetries rest in
            (Fetch attempt req :: SetTimeout (backoff attempt) :: effects,
             result)
      end
  end.

(** [fetchWithRetry(url, options, maxRetries = 3)]; [net k] is the outcome
    of the [fetch] of attempt [k]. *)
Definition fetchWithRetry (net : nat → FetchOutcome number)
    (req : Request number) (maxRetries : nat)
  : M Effect (option (Response number)) :=
  retry_loop net req maxRetries (seq 0 maxRetries).

(** The request of the submit handler: POST [{url}] to
    [/artifact/{artifactType}]. *)
Definition submit_request (artifactType ArtifactUrl : string)
  : Request number :=
  mkRequest "POST" (API_BASE_URL +:+ "/artifact/" +:+ artifactType)
    [("Content-Type", "application/json")]
    (Some (JObject [("url", JString ArtifactUrl)])).

Definition submitting_html : string :=
  "<i class=" +:+ dq +:+ "fas fa-spinner fa-spin" +:+ dq
    +:+ "></i> Submitting...".

Definition submit_html : string :=
  "<i class=" +:+ dq +:+ "fas fa-upload" +:+ dq +:+ "></i> Submit Artifact".

(** Lines 95-103: what the handler does with the value [fetchWithRetry]
    resolved with.  [nameInput] is the value of the input the free
    identifier [nameInput] denotes, [None] when nothing binds the
    identifier (the file no longer declares it).  The template literal of
    line 99 converts the name, then the id, to a string. *)
Definition on_response (nameInput : option string)
    (response : option (Response number)) : M Effect unit :=
  match response with
  | None =>
      throw (thrown TypeError ReadOfNullish)
  | Some response =>
      if status response =? 201 then
        let* result := lift (Response_json response) in
        let* metadata := lift (member result "metadata") in
        let* artifactName :=
          (if truthy (opt_member metadata "name")
           then ret (opt_member metadata "name")
           else match nameInput with
                | Some value => ret (JString (trim value))
                | None =>
                    throw (thrown ReferenceError (NotDefined "nameInput"))
                end) in
        let artifactId := js_or (opt_member metadata "id") (JString "N/A") in
        let* name_text := lift (ToString artifactName) in
        let* id_text := lift (ToString artifactId) in
        showMessage
          ("Artifact " +:+ dq +:+ name_text +:+ dq
             +:+ " registered successfully! ID: " +:+ id_text)
          false
      else
        throw (mkError Error
                 ("Unexpected successful response status: "
                    +:+ Z_toString (status response)))
  end.

(** Lines 105-108: the [catch] clause of the handler. *)
Definition on_error (error : JSError) : M Effect unit :=
  emit (ConsoleError error);;
  showMessage ("Submission Failed: " +:+ message error
                 +:+ ". Please try again.") true.

(** The [submit] listener of the form.  [typeValue] and [urlValue] are the
    values of the two form controls.  [e.preventDefault()] touches the
    event only and is not recorded. *)
Definition submit (net : nat → FetchOutcome number)
    (nameInput : option string) (typeValue urlValue : string)
  : M Effect unit :=
  let artifactType := typeValue in
  let ArtifactUrl := trim urlValue in
  emit (SubmitDisabled true);;
  emit (SubmitHTML submitting_html);;
  emit (MessageClass "message-container hidden");;
  try_finally
    (try_catch
       (let* response :=
          fetchWithRetry net (submit_request artifactType ArtifactUrl) 3 in
        on_response nameInput response)
       on_error)
    (emit (SubmitDisabled false);;
     emit (SubmitHTML submit_html)).

(** The user was shown the success (resp. failure) message. *)
Definition reports_success (effects : list Effect) : Prop :=
  MessageClass "message-container success" ∈ effects.

Definition reports_failure (effects : list Effect) : Prop :=
  MessageClass "message-container error" ∈ effects.

(** The attempts made and the delays waited, in order. *)
Definition attempts_made (effects : list Effect) : list nat :=
  omap (λ ev, match ev with Fetch attempt _ => Some attempt | _ => None end)
       effects.

Definition delays (effects : list Effect) : list Z :=
  omap (λ ev, match ev with SetTimeout d => Some d | _ => None end) effects.

(** The effects of the retry loop. *)
Definition is_network (ev : Effect) : Prop :=
  match ev with
  | Fetch _ _ | SetTimeout _ => True
  | _ => False
  end.

(** A transient outcome: no response at all, or a response whose status is
    neither 2xx nor one of the four statuses of [not_retriable]. *)
Definition transient (o : FetchOutcome number) : Prop :=
  match o with
  | Failed _ => True
  | Responded r => ok r = false ∧ not_retriable (status r) = false
  end.

(** Attempts [0 .. j], with a wait of [2^k * 1000] after each attempt
    [k < j]. *)
Definition schedule (req : Request number) (j : nat) : list Effect :=
  flat_map (λ k, [Fetch k req; SetTimeout (2 ^ Z.of_nat k * 1000)]) (seq 0 j)
    ++ [Fetch j req].
End Contribute.

Arguments Effect number : clear implicits.

End Contribute.

(** * app.js *)
Module App.

Fixpoint replace_all (c : ascii) (by_ : string) (s : string) : string :=
  match s with
  | EmptyString => EmptyString
  | String c' rest =>
      if Ascii.eqb c c' then by_ +:+ replace_all c by_ rest
      else String c' (replace_all c by_ rest)
  end.

(** [escapeHtml(str)] on a string: the five [replace] calls, in order. *)
Definition escapeHtml (str : string) : string :=
  replace_all "'" "&#039;"
    (replace_all (ascii_of_nat 34) "&quot;"
       (replace_all ">" "&gt;"
          (replace_all "<" "&lt;"
             (replace_all "&" "&amp;" str)))).

(** The placeholder card markup, plain and with the danger style. *)
Definition placeholder (inner : string) : string :=
  "<div class=" +:+ dq +:+ "model-card placeholder" +:+ dq +:+ ">"
    +:+ inner +:+ "</div>".

Definition danger_placeholder (inner : string) : string :=
  "<div class=" +:+ dq +:+ "model-card placeholder" +:+ dq
    +:+ " style=" +:+ dq
    +:+ "background-color: var(--danger-color); color: white;" +:+ dq +:+ ">"
    +:+ inner +:+ "</div>".

Definition icon (cls : string) : string :=
  "<i class=" +:+ dq +:+ cls +:+ dq +:+ "></i>".

Definition searching_html : string :=
  placeholder (icon "fas fa-spinner fa-spin" +:+ " Searching artifacts...").

Definition no_match_html (query : string) : string :=
  placeholder ("No artifacts found matching: <strong>" +:+ escapeHtml query
                 +:+ "</strong>.").

Definition search_error_html : string :=
  danger_placeholder "Search Error: Invalid Query Input".

Definition fetching_html : string :=
  placeholder "Fetching core artifact list...".

Definition empty_registry_html : string :=
  placeholder "No artifacts found in the registry.".

Definition init_error_html (msg : string) : string :=
  danger_placeholder ("Error: " +:+ msg +:+ ". Check your API_BASE_URL.").

Definition search_button_html : string := icon "fas fa-search" +:+ " Search".

Definition searching_button_html : string :=
  icon "fas fa-spinner fa-spin" +:+ " Searching".

Definition rate_url (id : string) : string :=
  API_BASE_URL +:+ "/artifact/model/" +:+ id +:+ "/rate".

Definition cost_url (model_type id : string) : string :=
  API_BASE_URL +:+ "/artifact/" +:+ model_type +:+ "/" +:+ id +:+ "/cost".

Definition regex_url : string := API_BASE_URL +:+ "/artifact/byRegEx".

(** An artifact summary as the registry lists it, all fields strings. *)
Record Artifact := mkArtifact { id : string; name : string; type : string }.

Inductive Element := searchButton | searchInput.

Section App.
Context {number : Type} `{JSNumber number} {engine : Engine}.

(** The record [fetchModelDetails] resolves with. *)
Record Details := mkDetails { rating : JSValue number; cost : string }.

Inductive Effect :=
| Fetch (req : Request number)
| SetDisabled (el : Element) (b : bool)     (* el.disabled = b *)
| ButtonHTML (html : string)                (* searchButton.innerHTML = *)
| GridHTML (html : string)                  (* modelsGrid.innerHTML = *)
| AppendCard (model : JSValue number)       (* modelsGrid.appendChild(card) *)
| CardLoading (id : string) (on : bool)     (* classList add/remove *)
| OpenModal (model : Artifact) (details : Details)
| Alert (msg : string)
| ConsoleLog (msg : string)
| ConsoleError (msg : string).  (* the message; the error object logged
                                   with it is not recorded *)

(** [fetch(url)] and [fetch(url, {method: 'POST', ...})] *)
Definition GET (url : string) : Request number := mkRequest "GET" url [] None.

Definition fetch (req : Request number) (o : FetchOutcome number)
  : M Effect (Response number) :=
  emit (Fetch req);;
  lift (match o with
        | Responded r => Fulfilled r
        | Failed e => Rejected e
        end).

(** ** fetchModelDetails *)

(** [fetch(url).then(res => res.json())], once the fetch has settled. *)
Definition sub_request (o : FetchOutcome number) : Settled (JSValue number) :=
  match o with
  | Failed e => Rejected e
  | Responded res => Response_json res
  end.

(** [Promise.all] of two promises; only whether it rejects is observable
    by the program, the reason goes to the console. *)
Definition Promise_all {A B} (a : Settled A) (b : Settled B)
  : Settled (A * B) :=
  match a, b with
  | Fulfilled x, Fulfilled y => Fulfilled (x, y)
  | Rejected e, _ => Rejected e
  | _, Rejected e => Rejected e
  end.

Definition sentinel : Details := mkDetails (JString "N/A") "N/A".

(** The two requests issued when the function is called, before its
    [await]. *)
Definition fetchModelDetails_start (id model_type : string) : list Effect :=
  [Fetch (GET (rate_url id)); Fetch (GET (cost_url model_type id))].

(** The rest of the function, from the outcomes of the two requests.  The
    template literal of line 151 converts the cost to a string, inside the
    [try]. *)
Definition fetchModelDetails_settle (rate_o cost_o : FetchOutcome number)
    (id : string) : M Effect Details :=
  try_catch
    (let* responses :=
       lift (Promise_all (sub_request rate_o) (sub_request cost_o)) in
     let '(ratingResponse, costResponse) := responses in
     let* values := lift (Object_values costResponse) in
     let cost :=
       coalesce (opt_member (first values) "total_cost") (JString "N/A") in
     let* cost_text := lift (ToString cost) in
     ret {| rating :=
              coalesce (opt_member ratingResponse "net_score") (JString "N/A");
            cost := cost_text +:+ " MB" |})
    (λ error,
       emit (ConsoleError ("Error fetching details for model " +:+ id +:+ ":"));;
       ret sentinel).

(** The cost field as the specification words it: the [total_cost] of the
    first entry with the unit when it is a number, the sentinel otherwise. *)
Definition cost_as_specified (costResponse : JSValue number) : string :=
  match Object_values costResponse with
  | Fulfilled (entry :: _) =>
      match opt_member entry "total_cost" with
      | JNumber n => Number_toString n +:+ " MB"
      | _ => "N/A"
      end
  | _ => "N/A"
  end.

(** [fetchModelDetails(id, model_type)] *)
Definition fetchModelDetails (rate_o cost_o : FetchOutcome number)
    (id model_type : string) : M Effect Details :=
  (fetchModelDetails_start id model_type, Fulfilled tt);;
  fetchModelDetails_settle rate_o cost_o id.

(** ** Rendering the list *)

(** [createModelCard(model, details)]: where it throws.  [model.id] needs
    a non-nullish [model]; the [dataset] setter converts [model.id || '']
    to a string; [(model.type || 'model').toLowerCase()] needs a string;
    [escapeHtml] converts [model.name || ''] to a string.  The other
    conversions of the template are of values already converted. *)
Definition createModelCard (model : JSValue number) : Settled unit :=
  if nullish model then
    Rejected (thrown TypeError ReadOfNullish)
  else
    match ToString (js_or (Get model "id") (JString "")) with
    | Rejected e => Rejected e
    | Fulfilled _ =>
        match (if truthy (Get model "type") then
                 match Get model "type" with
                 | JString _ => Fulfilled tt
                 | _ => Rejected (thrown TypeError NotAFunction)
                 end
               else Fulfilled tt) with
        | Rejected e => Rejected e
        | Fulfilled _ =>
            match ToString (js_or (Get model "name") (JString "")) with
            | Rejected e => Rejected e
            | Fulfilled _ => Fulfilled tt
            end
        end
    end.

(** The callback of [artifacts.forEach], element after element. *)
Fixpoint render_cards (artifacts : list (JSValue number)) : M Effect unit :=
  match artifacts with
  | [] => ret tt
  | model :: rest =>
      lift (createModelCard model);;
      emit (AppendCard model);;
      render_cards rest
  end.

(** [artifacts.forEach(...)] *)
Definition forEach_card (artifacts : JSValue number) : M Effect unit :=
  match artifacts with
  | JArray elems => render_cards elems
  | _ => throw (thrown TypeError NotAFunction)
  end.

(** [artifacts.length === 0] *)
Definition length_is_zero (artifacts : JSValue number) : Settled bool :=
  match artifacts with
  | JUndefined | JNull =>
      Rejected (thrown TypeError ReadOfNullish)
  | JArray elems => Fulfilled (match elems with [] => true | _ => false end)
  | JString s => Fulfilled (String.eqb s "")
  | JObject props =>
      Fulfilled (match assoc "length" props with
                 | JNumber n => Number_isZero n
                 | _ => false
                 end)
  | JBool _ | JNumber _ => Fulfilled false
  end.

(** ** init: the list flow *)

Definition list_request : Request number :=
  mkRequest "POST" (API_BASE_URL +:+ "/artifacts") []
    (Some (JArray [JObject [("name", JString "*"); ("types", JArray [])]])).

Definition init (list_o : FetchOutcome number) : M Effect unit :=
  emit (GridHTML fetching_html);;
  try_catch
    (let* response := fetch list_request list_o in
     if negb (ok response) then
       throw (mkError Error
                ("API Request Failed: " +:+ Z_toString (status response)
                   +:+ " " +:+ statusText response))
     else
       let* artifacts := lift (Response_json response) in
       emit (GridHTML "");;
       let* empty := lift (length_is_zero artifacts) in
       if empty : bool then emit (GridHTML empty_registry_html)
       else forEach_card artifacts)
    (λ error,
       emit (GridHTML (init_error_html (message error)));;
       emit (ConsoleError "Initialization failed:")).

(** ** searchArtifacts: the search flow *)

Definition search_request (query : string) : Request number :=
  mkRequest "POST" regex_url [("Content-Type", "application/json")]
    (Some (JObject [("regex", JString query)])).

(** [!query || query.trim() === ''] *)
Definition blank (query : string) : bool :=
  String.eqb query "" || String.eqb (trim query) "".

(** [searchArtifacts(query)].  [list_o] and [search_o] are the outcomes of
    the requests the call may issue, [buttonHTML] is the markup of the
    search button when the function is entered.  Nothing ever sets the
    property [searchButton.originalButtonContent], so line 37 always takes
    the right operand of [||]. *)
Definition searchArtifacts (list_o search_o : FetchOutcome number)
    (buttonHTML : string) (query : string) : M Effect unit :=
  if blank query then
    emit (ConsoleLog "Empty search query. Redirecting to home (init).");;
    emit (SetDisabled searchButton false);;
    emit (SetDisabled searchInput false);;
    emit (ButtonHTML search_button_html);;
    spawn (init list_o)
  else
    let originalButtonContent := buttonHTML in
    emit (SetDisabled searchButton true);;
    emit (SetDisabled searchInput true);;
    emit (GridHTML searching_html);;
    emit (ButtonHTML searching_button_html);;
    try_finally
      (try_catch
         (let* response := fetch (search_request query) search_o in
          if negb (ok response) then
            if status response =? 404 then
              emit (GridHTML (no_match_html query))
            else
              throw (mkError Error
                       ("Search API Request Failed: "
                          +:+ Z_toString (status response) +:+ " "
                          +:+ statusText response))
          else
            let* artifacts := lift (Response_json response) in
            emit (GridHTML "");;
            let* empty := lift (length_is_zero artifacts) in
            if empty : bool then emit (GridHTML (no_match_html query))
            else forEach_card artifacts)
         (λ error,
            emit (GridHTML search_error_html);;
            emit (ConsoleError "Search failed:")))
      (emit (SetDisabled searchButton false);;
       emit (SetDisabled searchInput false);;
       emit (ButtonHTML originalButtonContent)).

(** What the grid shows after a run: the last markup assigned to it and
    the cards appended since. *)
Fixpoint grid (view : string * list (JSValue number)) (effects : list Effect)
  : string * list (JSValue number) :=
  match effects with
  | [] => view
  | GridHTML html :: rest => grid (html, []) rest
  | AppendCard model :: rest => grid (view.1, view.2 ++ [model]) rest
  | _ :: rest => grid view rest
  end.

(** The requests of a run, in order. *)
Definition requests (effects : list Effect) : list (Request number) :=
  omap (λ ev, match ev with Fetch req => Some req | _ => None end) effects.

(** ** The detail listeners and the detail cache *)

(** The two listeners that show the details of an artifact: the click
    listener of its card (lines 279-309, and 87-116 in the search flow) and
    the branch of the grid listener for its Details button (lines
    347-373). *)
Inductive Listener := CardListener | DetailsListener.

(** The page between two turns of the event loop: the cache, the listeners
    suspended at their [await], oldest first, and the effects performed so
    far. *)
Record Page := mkPage {
  modelDetailsCache : gmap string Details;
  awaiting : list (Listener * Artifact);
  log : list Effect
}.

Definition initial : Page := mkPage ∅ [] [].

(** [openModelModal(model, details)]: the modal is appended to the page
    unless building its markup throws, as [String(details.rating)] does for
    a rating that has no string form (a number is printed by its own
    [toString]; the cost and the fields of the artifact are strings). *)
Definition openModelModal (model : Artifact) (details : Details)
  : M Effect unit :=
  let* _ := lift (ToString (rating details)) in
  emit (OpenModal model details).

(** A click on a card, outside its Details button: the listener up to its
    [return] or its [await]. *)
Definition click (model : Artifact) (p : Page) : Page :=
  let log1 :=
    log p ++ [ConsoleLog ("Card clicked, model ID: " +:+ id model)] in
  if String.eqb (id model) "" then
    mkPage (modelDetailsCache p) (awaiting p)
      (log1 ++ [Alert "Model ID not available for this artifact."])
  else
    match modelDetailsCache p !! id model with
    | Some details =>
        mkPage (modelDetailsCache p) (awaiting p)
          (log1 ++ [ConsoleLog ("Using cached details for " +:+ id model)]
                ++ (openModelModal model details).1)
    | None =>
        mkPage (modelDetailsCache p) (awaiting p ++ [(CardListener, model)])
          (log1 ++ [CardLoading (id model) true;
                    ConsoleLog ("Fetching details for " +:+ id model)]
                ++ fetchModelDetails_start (id model) (type model))
    end.

(** A click on the Details button of a card: the grid listener up to its
    [return] or its [await].  Every card of the grid carries its model. *)
Definition click_details (model : Artifact) (p : Page) : Page :=
  match modelDetailsCache p !! id model with
  | Some details =>
      mkPage (modelDetailsCache p) (awaiting p)
        (log p ++ (openModelModal model details).1)
  | None =>
      mkPage (modelDetailsCache p) (awaiting p ++ [(DetailsListener, model)])
        (log p ++ [CardLoading (id model) true]
               ++ fetchModelDetails_start (id model) (type model))
  end.

(** What a listener does with the record it awaited, before its
    [finally]. *)
Definition on_details (listener : Listener) (model : Artifact)
    (details : Details) : M Effect unit :=
  match listener with
  | CardListener =>
      emit (ConsoleLog "Fetched details:");; openModelModal model details
  | DetailsListener => openModelModal model details
  end.

(** The [catch] clause of a listener. *)
Definition on_failure (listener : Listener) (model : Artifact)
    (err : JSError) : list Effect :=
  match listener with
  | CardListener =>
      [ConsoleError ("Failed to load details for " +:+ id model +:+ ":");
       Alert "Failed to load artifact details. See console for details."]
  | DetailsListener =>
      [ConsoleError (message err); Alert "Failed to load details."]
  end.

(** The [k]-th suspended listener resumes when its two requests have
    settled with [rate_o] and [cost_o]: it stores the record, then opens
    the modal inside its [try]; its [finally] removes the mark. *)
Definition resume (k : nat) (rate_o cost_o : FetchOutcome number) (p : Page)
  : Page :=
  match awaiting p !! k with
  | None => p
  | Some (listener, model) =>
      let '(effects, result) :=
        fetchModelDetails_settle rate_o cost_o (id model) in
      match result with
      | Fulfilled details =>
          mkPage (<[id model := details]> (modelDetailsCache p))
            (delete k (awaiting p))
            (log p ++ effects
               ++ (try_catch (on_details listener model details)
                     (λ err, (on_failure listener model err, Fulfilled tt))).1
               ++ [CardLoading (id model) false])
      | Rejected err =>
          mkPage (modelDetailsCache p) (delete k (awaiting p))
            (log p ++ effects ++ on_failure listener model err
               ++ [CardLoading (id model) false])
      end
  end.

Inductive Event :=
| Click (model : Artifact)
| ClickDetails (model : Artifact)
| Settle (k : nat) (rate_o cost_o : FetchOutcome number).

Definition step (p : Page) (ev : Event) : Page :=
  match ev with
  | Click model => click model p
  | ClickDetails model => click_details model p
  | Settle k rate_o cost_o => resume k rate_o cost_o p
  end.

Definition run (events : list Event) (p : Page) : Page :=
  foldl step p events.

(** The event is a request for the details of [model]. *)
Definition asks_details (model : Artifact) (ev : Event) : Prop :=
  ev = Click model ∨ ev = ClickDetails model.

(** The number of detail sub-fetch sequences started for [i]: each starts
    with the rating request of [i]. *)
Definition fetch_sequences (i : string) (effects : list Effect) : nat :=
  length (filter (λ req, req_url req = rate_url i) (requests effects)).
End App.

Arguments Details number : clear implicits.
Arguments Effect number : clear implicits.
Arguments Page number : clear implicits.
Arguments Event number : clear implicits.

End App.

(** * Auxiliary notions for the properties of app.js *)
Module AppAux.
Import App.

(** What [escapeHtml] writes for one character. *)
Definition escape_char (c : ascii) : string :=
  if Ascii.eqb c "&" then "&amp;"
  else if Ascii.eqb c "<" then "&lt;"
  else if Ascii.eqb c ">" then "&gt;"
  else if Ascii.eqb c (ascii_of_nat 34) then "&quot;"
  else if Ascii.eqb c "'" then "&#039;"
  else String c EmptyString.

(** The character occurs in the string. *)
Fixpoint occurs (c : ascii) (s : string) : bool :=
  match s with
  | EmptyString => false
  | String c' rest => Ascii.eqb c c' || occurs c rest
  end.

(** One of the five characters [escapeHtml] replaces. *)
Definition special (c : ascii) : bool :=
  Ascii.eqb c "&" || Ascii.eqb c "<" || Ascii.eqb c ">"
  || Ascii.eqb c (ascii_of_nat 34) || Ascii.eqb c "'".

Fixpoint has_special (s : string) : bool :=
  match s with
  | EmptyString => false
  | String c rest => special c || has_special rest
  end.

Section AppAux.
Context {number : Type} `{JSNumber number} {engine : Engine}.

(** [createModelCard] builds a card for the artifact. *)
Definition renderable (model : JSValue number) : Prop :=
  createModelCard model = Fulfilled tt.

(** An effect on the grid or the console only: no request, no change to the
    search button or the search input. *)
Definition grid_only (ev : Effect number) : Prop :=
  match ev with
  | GridHTML _ | AppendCard _ | ConsoleError _ => True
  | _ => False
  end.

(** How many times the class [loading] was added ([on = true]) or removed
    ([on = false]). *)
Fixpoint loading_changes (on : bool) (effects : list (Effect number)) : nat :=
  match effects with
  | [] => 0
  | CardLoading _ b :: rest =>
      ((if Bool.eqb b on then 1 else 0) + loading_changes on rest)%nat
  | _ :: rest => loading_changes on rest
  end.
End AppAux.

End AppAux.

(** * artifact.js *)
Module ArtifactPage.

(** [s.endsWith(suffix)] *)
Fixpoint endsWith (s suffix : string) : bool :=
  String.eqb s suffix
  || match s with
     | EmptyString => false
     | String _ rest => endsWith rest suffix
     end.

(** [urlParams.get(name)] is a string, or [null] when the query string has
    no such parameter; a template literal prints [null] as ["null"]. *)
Definition param_text (v : option string) : string :=
  match v with
  | Some s => s
  | None => "null"
  end.

(** [artifactType === "model"] *)
Definition is_model (artifactType : option string) : bool :=
  match artifactType with
  | Some t => String.eqb t "model"
  | None => false
  end.

Definition metadata_url (artifactType artifactId : option string) : string :=
  API_BASE_URL +:+ "/artifacts/" +:+ param_text artifactType +:+ "/"
    +:+ param_text artifactId.

Definition rating_url (artifactType artifactId : option string) : string :=
  API_BASE_URL +:+ "/artifact/" +:+ param_text artifactType +:+ "/"
    +:+ param_text artifactId +:+ "/rate".

Definition no_rating_html (artifactType : option string) : string :=
  "<p>No rating available for <strong>" +:+ param_text artifactType
    +:+ "</strong> type.</p>".

Section ArtifactPage.
Context {number : Type} `{JSNumber number} {engine : Engine}.

(** [n.toFixed(3)] *)
Variable toFixed3 : number → string.

Inductive Effect :=
| Fetch (req : Request number)
| SetText (element : string) (s : string)
    (* document.getElementById(element).textContent = s *)
| SetHTML (element : string) (html : string)
    (* document.getElementById(element).innerHTML = html *)
| AppendRow (s : string)
    (* subscoresBox.appendChild(row), row a <p> with textContent s *)
| SetDownload (downloadURL : JSValue number)
    (* downloadBtn.onclick = () => { location.href = downloadURL } *)
| Confirm (msg : string)
| Alert (msg : string)
| Navigate (url : string)               (* window.location.href = url *)
| ConsoleError (msg : string).

(** The callback of [Object.entries(rating).forEach], entry after entry. *)
Fixpoint subscore_rows (entries : list (string * JSValue number))
  : list Effect :=
  match entries with
  | [] => []
  | (key, value) :: rest =>
      match value with
      | JNumber n =>
          let isNet := String.eqb key "net_score" in
          let isLatency := endsWith key "_latency" in
          if negb isNet && negb isLatency
          then AppendRow (key +:+ ": " +:+ Number_toString n)
                 :: subscore_rows rest
          else subscore_rows rest
      | _ => subscore_rows rest
      end
  end.

(** [Object.entries(rating)] where it is reached: only an object has a
    numeric [net_score], and its entries are its properties. *)
Definition Object_entries (v : JSValue number)
  : list (string * JSValue number) :=
  match v with
  | JObject props => props
  | _ => []
  end.

(** Lines 27-43: the score and the sub-scores of a model.
    [rating.net_score.toFixed(3)] throws unless [net_score] is a number:
    nothing can be read on a missing [net_score], and no other value of a
    payload has a [toFixed] that can be called. *)
Definition show_rating (rating : JSValue number) : M Effect unit :=
  let* net_score := lift (member rating "net_score") in
  match net_score with
  | JNumber n =>
      emit (SetText "netScore" (toFixed3 n));;
      emit (SetHTML "subscores" "");;
      (subscore_rows (Object_entries rating), Fulfilled tt)
  | JUndefined | JNull => throw (thrown TypeError ReadOfNullish)
  | _ => throw (thrown TypeError NotAFunction)
  end.

(** [loadReadme(repoUrl)].  The template literal that builds [readmeUrl]
    stands before the [try]: a [repoUrl] that has no string form makes the
    call reject. *)
Definition loadReadme (readme_o : FetchOutcome number)
    (repoUrl : JSValue number) : M Effect unit :=
  if negb (truthy repoUrl) then
    emit (SetText "readmeContent" "No README available.")
  else
    let* repo_text := lift (ToString repoUrl) in
    let readmeUrl := repo_text +:+ "/raw/main/README.md" in
    try_catch
      (emit (Fetch (mkRequest "GET" readmeUrl [] None));;
       let* markdown :=
         lift (match readme_o with
               | Responded res => Fulfilled (text res)
               | Failed e => Rejected e
               end) in
       emit (SetText "readmeContent" markdown))
      (λ _, emit (SetText "readmeContent" "No README available.")).

(** [loadArtifact()].  [artifactType] and [artifactId] are the two
    parameters read from the query string; [meta_o], [rating_o] and
    [readme_o] are the outcomes of the requests the call may issue. *)
Definition loadArtifact (meta_o rating_o readme_o : FetchOutcome number)
    (artifactType artifactId : option string) : M Effect unit :=
  try_catch
    (emit (Fetch (mkRequest "GET" (metadata_url artifactType artifactId)
                    [] None));;
     let* meta := lift (App.sub_request meta_o) in
     let* metadata := lift (member meta "metadata") in
     let artifactName :=
       js_or (opt_member metadata "name") (JString "Unknown Artifact") in
     let* data := lift (member meta "data") in
     let downloadURL := opt_member data "download_url" in
     let repoUrl := opt_member data "url" in
     let* name_text := lift (ToString artifactName) in
     emit (SetText "artifactName" name_text);;
     (if is_model artifactType then
        emit (Fetch (mkRequest "GET" (rating_url artifactType artifactId)
                       [] None));;
        let* rating := lift (App.sub_request rating_o) in
        show_rating rating
      else
        emit (SetText "netScore" "N/A");;
        emit (SetHTML "subscores" (no_rating_html artifactType)));;
     emit (SetDownload downloadURL);;
     loadReadme readme_o repoUrl)
    (λ err, emit (ConsoleError "Failed to load artifact:")).

(** The [onclick] listener of the delete button.  [confirmed] is the answer
    to the [confirm] dialog.  The [fetch] is not inside a [try]. *)
Definition deleteArtifact (confirmed : bool) (delete_o : FetchOutcome number)
    (artifactType artifactId : option string) : M Effect unit :=
  emit (Confirm "Are you ABSOLUTELY sure? This cannot be undone.");;
  if negb confirmed then ret tt
  else
    emit (Fetch (mkRequest "DELETE" (metadata_url artifactType artifactId)
                   [] None));;
    let* res :=
      lift (match delete_o with
            | Responded r => Fulfilled r
            | Failed e => Rejected e
            end) in
    if status res =? 200 then
      emit (Alert "Artifact deleted permanently.");;
      emit (Navigate "/home.html")
    else emit (Alert "Delete failed.").

(** The requests of a run, the rows appended to the sub-scores box and the
    texts written to an element, in order. *)
Definition requests (effects : list Effect) : list (Request number) :=
  omap (λ ev, match ev with Fetch req => Some req | _ => None end) effects.

Definition rows (effects : list Effect) : list string :=
  omap (λ ev, match ev with AppendRow s => Some s | _ => None end) effects.

Definition texts (element : string) (effects : list Effect) : list string :=
  omap (λ ev, match ev with
              | SetText el s => if String.eqb el element then Some s else None
              | _ => None
              end) effects.
End ArtifactPage.

Arguments Effect number : clear implicits.

End ArtifactPage.

(** * Sample inputs, with integer numbers

    A sample response gives its body by the value it parses to; its text is
    left empty where no code reads it. *)
Module Samples.

Definition reply (st : Z) (reason body : string) (parsed : option (JSValue Z))
  : FetchOutcome Z :=
  Responded (mkResponse st reason body parsed).

Definition unreachable : FetchOutcome Z :=
  Failed (mkError TypeError "Failed to fetch").

(** The outcomes of successive attempts, then no network. *)
Definition script (outcomes : list (FetchOutcome Z)) (k : nat) : FetchOutcome Z :=
  nth k outcomes unreachable.

Definition conflict : Response Z :=
  mkResponse 409 "Conflict" "Artifact exists" None.

Definition server_error : Response Z :=
  mkResponse 500 "Internal Server Error" "" None.

Definition created : Response Z :=
  mkResponse 201 "Created" ""
    (Some (JObject [("metadata",
                     JObject [("name", JString "bert"); ("id", JString "a1")])])).

(** A 201 whose body is not JSON. *)
Definition created_empty : Response Z := mkResponse 201 "Created" "" None.

Definition accepted : Response Z := mkResponse 202 "Accepted" "" None.

Definition post : Request Z :=
  Contribute.submit_request "model" "https://huggingface.co/bert".

Definition bert : App.Artifact := App.mkArtifact "a1" "bert" "model".

Definition json_ok (v : JSValue Z) : FetchOutcome Z :=
  reply 200 "OK" "" (Some v).
End Samples.

Module MoreSamples.

(** Two artifact summaries as the registry lists them. *)
Definition bert_json : JSValue Z :=
  JObject [("name", JString "bert"); ("id", JString "a1");
           ("type", JString "model")].

Definition squad_json : JSValue Z :=
  JObject [("name", JString "squad"); ("id", JString "d7");
           ("type", JString "dataset")].

Definition listing (artifacts : list (JSValue Z)) : Response Z :=
  mkResponse 200 "OK" "" (Some (JArray artifacts)).

(** An artifact whose [name] is an object with a [toString] entry of its
    own: it has no string form. *)
Definition unnamed_json : JSValue Z :=
  JObject [("name", JObject [("toString", JNumber 1)]); ("id", JString "x9");
           ("type", JString "model")].

(** A rating payload and a cost payload. *)
Definition rating_json : JSValue Z :=
  JObject [("net_score", JNumber 1); ("license", JNumber 1);
           ("license_latency", JNumber 20); ("category", JString "MODEL")].

Definition cost_json : JSValue Z :=
  JObject [("a1", JObject [("total_cost", JNumber 12)])].

(** The metadata of an artifact, with the URL of its repository. *)
Definition meta_json : JSValue Z :=
  JObject [("metadata", JObject [("name", JString "bert")]);
           ("data", JObject [("url", JString "https://huggingface.co/bert")])].

(** [n.toFixed(3)] for an integer [n]. *)
Definition toFixed3 (n : Z) : string := Z_toString n +:+ ".000".
End MoreSamples.

(** * Properties of contribute.js *)
Module ContributeSpec.
Import Contribute.

Section Retry.
Context {number : Type} `{JSNumber number} {engine : Engine}.
Implicit Types (net : nat → FetchOutcome number) (req : Request number).

Lemma not_retriable_not_ok (r : Response number) :
  not_retriable (status r) = true → ok r = false.
Proof.
  unfold not_retriable, ok. intros Hst.
  repeat (apply orb_true_iff in Hst as [Hst | Hst]);
    apply Z.eqb_eq in Hst; rewrite Hst; reflexivity.
Qed.

Lemma transient_throws (o : FetchOutcome number) :
  transient o → ∃ e, try_block o = Rejected e.
Proof.
  destruct o as [r | e]; simpl.
  - intros [Hok Hterm]. rewrite Hok, Hterm. eauto.
  - eauto.
Qed.

Lemma not_retriable_throws (r : Response number) :
  not_retriable (status r) = true →
  try_block (Responded r) =
    Rejected (mkError Error
      ("API Error (" +:+ Z_toString (status r) +:+ "): "
         +:+ string_or (text r) (statusText r))).
Proof.
  intros Hterm. simpl.
  rewrite (not_retriable_not_ok r Hterm), Hterm. reflexivity.
Qed.

(** A run of failed attempts, none of them the last, is a run of
    fetch-then-wait steps followed by the rest of the loop. *)
Lemma retry_loop_failures net req (maxRetries : nat) :
  ∀ (j a : nat) (rest : list nat),
    (a + j < maxRetries)%nat →
    (∀ k, (a ≤ k < a + j)%nat → ∃ e, try_block (net k) = Rejected e) →
    retry_loop net req maxRetries (seq a j ++ rest) =
      (flat_map (λ k, [Fetch k req; SetTimeout (2 ^ Z.of_nat k * 1000)])
                (seq a j)
         ++ (retry_loop net req maxRetries rest).1,
       (retry_loop net req maxRetries rest).2).
Proof.
  induction j as [| j IH]; intros a rest Hlt Hfail.
  - simpl. destruct (retry_loop net req maxRetries rest); reflexivity.
  - cbn [seq app retry_loop flat_map].
    destruct (Hfail a ltac:(lia)) as [e ->].
    destruct (Nat.eqb_spec a (maxRetries - 1)) as [Heq | _]; [lia |].
    rewrite (IH (S a) rest) by (try lia; intros k Hk; apply Hfail; lia).
    reflexivity.
Qed.

(** The loop up to attempt [j] when the attempts before [j] all fail. *)
Lemma fetchWithRetry_upto net req (maxRetries j : nat) :
  (j < maxRetries)%nat →
  (∀ k, (k < j)%nat → ∃ e, try_block (net k) = Rejected e) →
  fetchWithRetry net req maxRetries =
    (flat_map (λ k, [Fetch k req; SetTimeout (2 ^ Z.of_nat k * 1000)])
              (seq 0 j)
       ++ (retry_loop net req maxRetries (seq j (maxRetries - j))).1,
     (retry_loop net req maxRetries (seq j (maxRetries - j))).2).
Proof.
  intros Hj Hfail. unfold fetchWithRetry.
  replace maxRetries with (j + (maxRetries - j))%nat at 2 by lia.
  rewrite seq_app. simpl "+"%nat.
  apply retry_loop_failures; [lia |].
  intros k Hk. apply Hfail. lia.
Qed.

Lemma fetchWithRetry_resolves_at net req (maxRetries j : nat)
    (r : Response number) :
  (j < maxRetries)%nat →
  (∀ k, (k < j)%nat → ∃ e, try_block (net k) = Rejected e) →
  try_block (net j) = Fulfilled r →
  fetchWithRetry net req maxRetries = (schedule req j, Fulfilled (Some r)).
Proof.
  intros Hj Hfail Hok.
  rewrite (fetchWithRetry_upto net req maxRetries j Hj Hfail).
  replace (maxRetries - j)%nat with (S (maxRetries - S j)) by lia.
  cbn [seq retry_loop]. rewrite Hok. reflexivity.
Qed.

Lemma fetchWithRetry_exhausted net req (maxRetries : nat) (e : JSError) :
  (1 ≤ maxRetries)%nat →
  (∀ k, (k < maxRetries - 1)%nat → ∃ e', try_block (net k) = Rejected e') →
  try_block (net (maxRetries - 1)%nat) = Rejected e →
  fetchWithRetry net req maxRetries =
    (schedule req (maxRetries - 1), Rejected e).
Proof.
  intros Hpos Hfail Hlast.
  rewrite (fetchWithRetry_upto net req maxRetries (maxRetries - 1))
    by (lia || exact Hfail).
  replace (maxRetries - (maxRetries - 1))%nat with 1%nat by lia.
  cbn [seq retry_loop]. rewrite Hlast, Nat.eqb_refl. reflexivity.
Qed.

Lemma attempts_made_schedule req (j : nat) :
  attempts_made (schedule req j) = seq 0 (S j).
Proof.
  unfold schedule, attempts_made. rewrite omap_app, seq_S.
  f_equal.
  generalize 0%nat. induction j as [| j IH]; intros a; simpl; [done |].
  by rewrite IH.
Qed.

Lemma delays_schedule req (j : nat) :
  delays (schedule req j) = map (λ k, 2 ^ Z.of_nat k * 1000) (seq 0 j).
Proof.
  unfold schedule, delays. rewrite omap_app. simpl. rewrite app_nil_r.
  generalize 0%nat. induction j as [| j IH]; intros a; simpl; [done |].
  by rewrite IH.
Qed.

Lemma retry_loop_first net req (maxRetries a : nat) (rest : list nat) :
  ∃ effects,
    (retry_loop net req maxRetries (a :: rest)).1 = Fetch a req :: effects.
Proof.
  cbn [retry_loop]. destruct (try_block (net a)); [eauto |].
  destruct (a =? maxRetries - 1)%nat; [eauto |].
  destruct (retry_loop net req maxRetries rest). eauto.
Qed.

(** C1, as the code has it.  The claim is that a response with status 400,
    403, 409 or 424 makes [fetchWithRetry] fail at once, with no wait and
    no further attempt.  The [throw] of line 45 is inside the [try] block,
    so the [catch] clause of line 51 receives it like any other error:
    whenever an attempt remains, the function waits [2^0 * 1000] and
    fetches again. *)
Theorem fetchWithRetry_retries_not_retriable net req (maxRetries : nat)
    (r : Response number) :
  (2 ≤ maxRetries)%nat →
  net 0%nat = Responded r →
  not_retriable (status r) = true →
  ∃ effects,
    (fetchWithRetry net req maxRetries).1 =
      Fetch 0 req :: SetTimeout 1000 :: Fetch 1 req :: effects.
Proof.
  intros Hmax Hnet Hterm.
  rewrite (fetchWithRetry_upto net req maxRetries 1) by
    (try lia; intros k Hk; replace k with 0%nat by lia;
     rewrite Hnet, not_retriable_throws; eauto).
  replace (maxRetries - 1)%nat with (S (maxRetries - 2)) by lia.
  cbn [seq flat_map fst app].
  destruct (retry_loop_first net req maxRetries 1 (seq 2 (maxRetries - 2)))
    as [effects ->].
  exists effects. reflexivity.
Qed.

(** C4: for every [maxRetries >= 1], when every outcome is transient the
    function makes exactly [maxRetries] attempts, numbered
    [0 .. maxRetries-1], waits [2^k * 1000] after each failed attempt [k]
    that a retry follows, and fails with the error of the last attempt;
    when the first 2xx response comes at attempt [j], after transient
    outcomes only, it resolves with that response after the waits of
    attempts [0 .. j-1]; with three attempts answered 500, 500 and 201 it
    resolves after exactly the two waits 1000 and 2000. *)
Theorem fetchWithRetry_backoff net req (maxRetries : nat) :
  (1 ≤ maxRetries)%nat →
  ((∀ k, (k < maxRetries)%nat → transient (net k)) →
   ∃ e, try_block (net (maxRetries - 1)%nat) = Rejected e ∧
        fetchWithRetry net req maxRetries =
          (schedule req (maxRetries - 1), Rejected e) ∧
        attempts_made (fetchWithRetry net req maxRetries).1 =
          seq 0 maxRetries ∧
        delays (fetchWithRetry net req maxRetries).1 =
          map (λ k, 2 ^ Z.of_nat k * 1000) (seq 0 (maxRetries - 1)))
  ∧ (∀ (j : nat) (r : Response number),
       (j < maxRetries)%nat →
       (∀ k, (k < j)%nat → transient (net k)) →
       net j = Responded r → ok r = true →
       fetchWithRetry net req maxRetries =
         (schedule req j, Fulfilled (Some r)) ∧
       attempts_made (fetchWithRetry net req maxRetries).1 = seq 0 (S j) ∧
       delays (fetchWithRetry net req maxRetries).1 =
         map (λ k, 2 ^ Z.of_nat k * 1000) (seq 0 j))
  ∧ (maxRetries = 3%nat →
     ∀ r0 r1 r2 : Response number,
       net 0%nat = Responded r0 → net 1%nat = Responded r1 →
       net 2%nat = Responded r2 →
       status r0 = 500 → status r1 = 500 → status r2 = 201 →
       (fetchWithRetry net req maxRetries).2 = Fulfilled (Some r2) ∧
       delays (fetchWithRetry net req maxRetries).1 = [1000; 2000]).
Proof.
  intros Hpos.
  assert (Hresolve : ∀ (j : nat) (r : Response number),
    (j < maxRetries)%nat →
    (∀ k, (k < j)%nat → transient (net k)) →
    net j = Responded r → ok r = true →
    fetchWithRetry net req maxRetries = (schedule req j, Fulfilled (Some r))).
  { intros j r Hj Htrans Hnet Hok.
    apply fetchWithRetry_resolves_at; [done | |].
    - intros k Hk. apply transient_throws, Htrans, Hk.
    - rewrite Hnet. simpl. by rewrite Hok. }
  split; [| split].
  - intros Htrans.
    destruct (transient_throws (net (maxRetries - 1)%nat)) as [e He];
      [apply Htrans; lia |].
    exists e. split; [exact He |].
    rewrite (fetchWithRetry_exhausted net req maxRetries e Hpos); [| | done].
    + cbn [fst]. rewrite attempts_made_schedule, delays_schedule.
      replace (S (maxRetries - 1)) with maxRetries by lia. done.
    + intros k Hk. apply transient_throws, Htrans. lia.
  - intros j r Hj Htrans Hnet Hok.
    rewrite (Hresolve j r Hj Htrans Hnet Hok). cbn [fst].
    by rewrite attempts_made_schedule, delays_schedule.
  - intros -> r0 r1 r2 H0 H1 H2 S0 S1 S2.
    rewrite (Hresolve 2%nat r2);
      [cbn [fst snd]; rewrite delays_schedule; split; reflexivity
      | lia | | done |].
    + intros k Hk.
      destruct k as [| [| k]]; [rewrite H0 | rewrite H1 | lia];
        unfold transient, ok, not_retriable; [rewrite S0 | rewrite S1]; done.
    + unfold ok. by rewrite S2.
Qed.
End Retry.

(** With three attempts answered 409, 500 and 201 the 409 is followed by a
    wait of one second and a second attempt. *)
Lemma fetchWithRetry_retries_not_retriable_witness :
  ∃ effects,
    (fetchWithRetry
       (Samples.script [Responded Samples.conflict;
                        Responded Samples.server_error;
                        Responded Samples.created])
       Samples.post 3).1 =
      Fetch 0 Samples.post :: SetTimeout 1000 :: Fetch 1 Samples.post :: effects.
Proof.
  apply (fetchWithRetry_retries_not_retriable _ Samples.post 3 Samples.conflict).
  - lia.
  - reflexivity.
  - reflexivity.
Defined.

(** The run of that input in full: the 409 is retried and the call ends up
    resolving with the 201 of the third attempt. *)
Example fetchWithRetry_409_500_201 :
  fetchWithRetry
    (Samples.script [Responded Samples.conflict;
                     Responded Samples.server_error;
                     Responded Samples.created])
    Samples.post 3
  = ([Fetch 0 Samples.post; SetTimeout 1000;
      Fetch 1 Samples.post; SetTimeout 2000;
      Fetch 2 Samples.post],
     Fulfilled (Some Samples.created)).
Proof. reflexivity. Qed.

(** Responses 500, 500, 201 with three attempts: resolved with the 201 after
    the waits 1000 and 2000. *)
Lemma fetchWithRetry_backoff_witness :
  let net := Samples.script [Responded Samples.server_error;
                             Responded Samples.server_error;
                             Responded Samples.created] in
  (fetchWithRetry net Samples.post 3).2 = Fulfilled (Some Samples.created) ∧
  delays (fetchWithRetry net Samples.post 3).1 = [1000; 2000].
Proof.
  intros net.
  destruct (fetchWithRetry_backoff net Samples.post 3 ltac:(lia))
    as (_ & _ & Hexample).
  apply (Hexample eq_refl Samples.server_error Samples.server_error
           Samples.created); reflexivity.
Defined.

Section Submit.
Context {number : Type} `{JSNumber number} {engine : Engine}.
Implicit Types (net : nat → FetchOutcome number) (req : Request number).

Lemma retry_loop_network net req (maxRetries : nat) (attempts : list nat) :
  Forall is_network (retry_loop net req maxRetries attempts).1.
Proof.
  induction attempts as [| a rest IH]; cbn [retry_loop]; [constructor |].
  destruct (try_block (net a)); [repeat constructor |].
  destruct (a =? maxRetries - 1)%nat; [repeat constructor |].
  destruct (retry_loop net req maxRetries rest) as [effects result].
  repeat constructor. exact IH.
Qed.

Lemma network_not_message (effects : list (Effect number)) (cls : string) :
  Forall is_network effects → MessageClass cls ∉ effects.
Proof.
  intros Hall Hin. rewrite Forall_forall in Hall.
  exact (Hall _ Hin).
Qed.

(** What lines 95-103 do with a response: either one [throw] and no effect,
    or, for a 201 only, the success message. *)
Lemma on_response_cases (nameInput : option string) (r : Response number) :
  (∃ e, on_response nameInput (Some r) = ([], Rejected e)) ∨
  (status r = 201 ∧
   ∃ s, on_response nameInput (Some r) =
          ([MessageText s; MessageClass "message-container success"],
           Fulfilled tt)).
Proof.
  unfold on_response.
  destruct (Z.eqb_spec (status r) 201) as [Hst | Hst];
    [| left; eexists; reflexivity].
  unfold Response_json, member.
  destruct (json r) as [result |]; [| left; eexists; reflexivity].
  destruct (nullish result) eqn:Hnull; cbn [lift bind]; rewrite Hnull;
    [left; eexists; reflexivity |].
  destruct (truthy (opt_member (Get result "metadata") "name"));
    [| destruct nameInput as [value |]; [| left; eexists; reflexivity]].
  all: unfold bind, ret, lift.
  all: try (destruct (ToString (opt_member (Get result "metadata") "name"))
              as [s1 | e1]; [| left; eexists; reflexivity]).
  all: destruct (ToString (js_or (opt_member (Get result "metadata") "id")
                             (JString "N/A")))
         as [s2 | e2]; [| left; eexists; reflexivity].
  all: right; split; [exact Hst | eexists; reflexivity].
Qed.

(** The effects of the handler once [fetchWithRetry] has resolved. *)
Lemma submit_resolved net (nameInput : option string)
    (typeValue urlValue : string) (effects : list (Effect number))
    (response : option (Response number)) :
  fetchWithRetry net (submit_request typeValue (trim urlValue)) 3 =
    (effects, Fulfilled response) →
  (submit net nameInput typeValue urlValue).1 =
    [SubmitDisabled true; SubmitHTML submitting_html;
     MessageClass "message-container hidden"]
      ++ effects
      ++ (try_catch (on_response nameInput response) on_error).1
      ++ [SubmitDisabled false; SubmitHTML submit_html].
Proof.
  intros Hfetch. unfold submit. cbn zeta. rewrite Hfetch.
  unfold try_finally, try_catch, bind, emit.
  destruct (on_response nameInput response) as [t [[] | e]]; cbn;
    by rewrite <- ?app_assoc.
Qed.

(** The class given to the message container by a run of the handler comes
    from line 71 or from [showMessage]. *)
Lemma message_class_of_submit (cls : string)
    (effects handled : list (Effect number)) :
  Forall is_network effects →
  MessageClass cls ∈
    [SubmitDisabled true; SubmitHTML submitting_html;
     MessageClass "message-container hidden"]
      ++ effects ++ handled
      ++ [SubmitDisabled false; SubmitHTML submit_html]
  ↔ cls = "message-container hidden" ∨ MessageClass cls ∈ handled.
Proof.
  intros Hnet.
  rewrite !elem_of_app, !elem_of_cons, !elem_of_nil.
  pose proof (network_not_message effects cls Hnet) as Hnot.
  split.
  - intros [[Heq | [Heq | [Heq | []]]] | [Hin | [Hin | [Heq | [Heq | []]]]]];
      try discriminate Heq; [left; congruence | tauto | tauto].
  - intros [-> | Hin]; [left | right]; tauto.
Qed.

Lemma on_error_effects (e : JSError) :
  (on_error e : M (Effect number) unit) =
    ([ConsoleError e;
      MessageText ("Submission Failed: " +:+ message e +:+ ". Please try again.");
      MessageClass "message-container error"],
     Fulfilled tt).
Proof. reflexivity. Qed.

(** C10, as the code has it: once [fetchWithRetry] has resolved with a
    response, the handler reports success only if the status is exactly
    201, and does so when the body of the 201 is JSON for a non-null value
    whose [metadata.name] is truthy and has a string form, as has its
    [metadata.id] (or ["N/A"] in its place when it is falsy): the message
    shown names the two.  When one of the two has no string form the
    template literal throws and the 201 is reported as a failure; a 201
    whose body is not JSON is reported as a failure; every other status
    (200, 202, ...) is reported as a failure with the message [Unexpected
    successful response status]. *)
Theorem submit_success_only_for_201 net (nameInput : option string)
    (typeValue urlValue : string) (response : Response number) :
  (fetchWithRetry net (submit_request typeValue (trim urlValue)) 3).2 =
    Fulfilled (Some response) →
  let effects := (submit net nameInput typeValue urlValue).1 in
  (reports_success effects → status response = 201)
  ∧ (status response ≠ 201 →
     reports_failure effects ∧ ¬ reports_success effects ∧
     MessageText ("Submission Failed: Unexpected successful response status: "
                    +:+ Z_toString (status response) +:+ ". Please try again.")
       ∈ effects)
  ∧ (status response = 201 →
     ∀ result, json response = Some result → nullish result = false →
       let name := opt_member (Get result "metadata") "name" in
       let id := js_or (opt_member (Get result "metadata") "id")
                   (JString "N/A") in
       truthy name = true →
       (∀ name_text id_text,
          ToString name = Fulfilled name_text →
          ToString id = Fulfilled id_text →
          reports_success effects ∧ ¬ reports_failure effects ∧
          MessageText ("Artifact " +:+ dq +:+ name_text +:+ dq
                         +:+ " registered successfully! ID: " +:+ id_text)
            ∈ effects)
       ∧ (rejects (ToString name) ∨ rejects (ToString id) →
          reports_failure effects ∧ ¬ reports_success effects))
  ∧ (status response = 201 → json response = None →
     reports_failure effects ∧ ¬ reports_success effects).
Proof.
  intros Hfetch effects. subst effects.
  destruct (fetchWithRetry net (submit_request typeValue (trim urlValue)) 3)
    as [sent result] eqn:Hrun.
  cbn [snd] in Hfetch. subst result.
  assert (Hnet : Forall is_network sent).
  { pose proof (retry_loop_network net
                  (submit_request typeValue (trim urlValue)) 3 (seq 0 3))
      as Hloop.
    unfold fetchWithRetry in Hrun. rewrite Hrun in Hloop. exact Hloop. }
  rewrite (submit_resolved net nameInput typeValue urlValue sent _ Hrun).
  unfold reports_success, reports_failure.
  set (handled := (try_catch (on_response nameInput (Some response)) on_error).1).
  set (shown := [SubmitDisabled true; SubmitHTML submitting_html;
                 MessageClass "message-container hidden"]
                  ++ sent ++ handled
                  ++ [SubmitDisabled false; SubmitHTML submit_html]).
  pose proof (message_class_of_submit "message-container success"
                sent handled Hnet) as Hsuccess.
  pose proof (message_class_of_submit "message-container error"
                sent handled Hnet) as Herror.
  fold shown in Hsuccess, Herror.
  assert (Hthrow : ∀ e,
    on_response nameInput (Some response) = ([], Rejected e) →
    handled =
      [ConsoleError e;
       MessageText ("Submission Failed: " +:+ message e +:+ ". Please try again.");
       MessageClass "message-container error"]).
  { intros e He. subst handled. rewrite He. reflexivity. }
  assert (Hfail : ∀ e,
    on_response nameInput (Some response) = ([], Rejected e) →
    MessageClass "message-container error" ∈ shown
    ∧ MessageClass "message-container success" ∉ shown).
  { intros e He. rewrite Hsuccess, Herror, (Hthrow e He). split.
    - right. rewrite !elem_of_cons. tauto.
    - rewrite !elem_of_cons, elem_of_nil.
      intros [Heq | [Heq | [Heq | [Heq | []]]]]; discriminate Heq. }
  assert (Hshow : ∀ s,
    on_response nameInput (Some response) =
      ([MessageText s; MessageClass "message-container success"], Fulfilled tt) →
    MessageClass "message-container success" ∈ shown
    ∧ MessageClass "message-container error" ∉ shown).
  { intros s Hs. rewrite Hsuccess, Herror. subst handled. rewrite Hs.
    cbn [try_catch fst]. split.
    - right. rewrite !elem_of_cons. tauto.
    - rewrite !elem_of_cons, elem_of_nil.
      intros [Heq | [Heq | [Heq | []]]]; discriminate Heq. }
  split; [| split; [| split]].
  - intros Hin.
    destruct (on_response_cases nameInput response) as [[e He] | [Hst _]];
      [| exact Hst].
    destruct (Hfail e He) as [_ Hno]. contradiction.
  - intros Hst.
    assert (He : on_response nameInput (Some response) =
      ([], Rejected (mkError Error
              ("Unexpected successful response status: "
                 +:+ Z_toString (status response))))).
    { unfold on_response.
      destruct (Z.eqb_spec (status response) 201); [contradiction | reflexivity]. }
    destruct (Hfail _ He) as [Hyes Hno]. split; [exact Hyes |].
    split; [exact Hno |].
    subst shown. rewrite (Hthrow _ He), !elem_of_app, !elem_of_cons.
    cbn [message]. tauto.
  - intros Hst result Hjson Hnull.
    set (name := opt_member (Get result "metadata") "name").
    set (id := js_or (opt_member (Get result "metadata") "id")
                 (JString "N/A")).
    intros Hname.
    assert (Hrest : on_response nameInput (Some response) =
      (let* name_text := lift (ToString name) in
       let* id_text := lift (ToString id) in
       showMessage
         ("Artifact " +:+ dq +:+ name_text +:+ dq
            +:+ " registered successfully! ID: " +:+ id_text)
         false)).
    { unfold on_response, Response_json, member.
      rewrite Hst, Hjson. cbn [Z.eqb Pos.eqb lift bind]. rewrite Hnull.
      fold name. rewrite Hname. unfold bind, ret, lift. fold id.
      destruct (ToString name) as [s1 | e1]; [| reflexivity].
      destruct (ToString id) as [s2 | e2]; reflexivity. }
    split.
    + intros name_text id_text Hname_text Hid_text.
      assert (Hs : on_response nameInput (Some response) =
        ([MessageText ("Artifact " +:+ dq +:+ name_text +:+ dq
                         +:+ " registered successfully! ID: " +:+ id_text);
          MessageClass "message-container success"], Fulfilled tt)).
      { rewrite Hrest, Hname_text, Hid_text. reflexivity. }
      destruct (Hshow _ Hs) as [Hyes Hno].
      split; [exact Hyes |]. split; [exact Hno |].
      subst shown handled. rewrite Hs. cbn [try_catch fst].
      rewrite !elem_of_app, !elem_of_cons. tauto.
    + intros Hrej.
      assert (He : ∃ e, on_response nameInput (Some response) =
                          ([], Rejected e)).
      { rewrite Hrest. unfold bind, lift.
        destruct (ToString name) as [s1 | e1]; [| eexists; reflexivity].
        destruct (ToString id) as [s2 | e2]; [| eexists; reflexivity].
        destruct Hrej as [[] | []]. }
      destruct He as [e He]. exact (Hfail e He).
  - intros Hst Hjson.
    assert (He : on_response nameInput (Some response) =
      ([], Rejected (thrown SyntaxError NotJSON))).
    { unfold on_response, Response_json. rewrite Hst, Hjson. reflexivity. }
    exact (Hfail _ He).
Qed.
End Submit.

(** C10 as stated fails: a 201 response whose body is not JSON resolves
    [fetchWithRetry], and the handler reports a failure. *)
Lemma submit_201_reported_as_failure :
  let net := Samples.script [Responded Samples.created_empty] in
  let effects := (submit net None "model" "https://huggingface.co/bert").1 in
  (fetchWithRetry net Samples.post 3).2 = Fulfilled (Some Samples.created_empty)
  ∧ status Samples.created_empty = 201
  ∧ reports_failure effects
  ∧ ¬ reports_success effects.
Proof.
  intros net effects. vm_compute in effects. subst effects.
  split; [reflexivity |]. split; [reflexivity |].
  unfold reports_failure, reports_success. split.
  - rewrite !elem_of_cons. tauto.
  - intros Hin.
    repeat (apply elem_of_cons in Hin as [Hin | Hin]; [discriminate Hin |]).
    by apply elem_of_nil in Hin.
Qed.

(** A 202 is reported as a failure, a well-formed 201 as a success that
    names the artifact and its id. *)
Lemma submit_success_only_for_201_witness :
  let refused :=
    (submit (Samples.script [Responded Samples.accepted]) None
            "model" "https://huggingface.co/bert").1 in
  let registered :=
    (submit (Samples.script [Responded Samples.created]) None
            "model" "https://huggingface.co/bert").1 in
  (reports_failure refused ∧ ¬ reports_success refused)
  ∧ reports_success registered
  ∧ MessageText ("Artifact " +:+ dq +:+ "bert" +:+ dq
                   +:+ " registered successfully! ID: " +:+ "a1")
      ∈ registered.
Proof.
  cbv zeta. split.
  - destruct (submit_success_only_for_201
                (Samples.script [Responded Samples.accepted])
                None "model" "https://huggingface.co/bert" Samples.accepted
                eq_refl) as (_ & Hother & _).
    destruct Hother as (Hfail & Hnot & _); [discriminate |].
    split; assumption.
  - destruct (submit_success_only_for_201
                (Samples.script [Responded Samples.created])
                None "model" "https://huggingface.co/bert" Samples.created
                eq_refl) as (_ & _ & Hcreated & _).
    destruct (Hcreated eq_refl _ eq_refl eq_refl eq_refl) as [Hshown _].
    destruct (Hshown "bert" "a1" eq_refl eq_refl) as (Hyes & _ & Htext).
    split; [exact Hyes | exact Htext].
Defined.

End ContributeSpec.

(** * Properties of app.js *)
Module AppSpec.
Import App.

Section Details.
Context {number : Type} `{JSNumber number} {engine : Engine}.
Implicit Types (rate_o cost_o : FetchOutcome number) (id model_type : string).

(** The rest of the function, case by case: a record built from the two
    payloads when both sub-requests resolve, the cost payload has values and
    the cost has a string form; the [catch] clause otherwise. *)
Lemma fetchModelDetails_settle_cases rate_o cost_o id :
  fetchModelDetails_settle rate_o cost_o id =
    match sub_request rate_o, sub_request cost_o with
    | Fulfilled ratingResponse, Fulfilled costResponse =>
        match Object_values costResponse with
        | Fulfilled values =>
            match ToString (coalesce (opt_member (first values) "total_cost")
                              (JString "N/A")) with
            | Fulfilled cost_text =>
                ([], Fulfilled
                       {| rating := coalesce
                                      (opt_member ratingResponse "net_score")
                                      (JString "N/A");
                          cost := cost_text +:+ " MB" |})
            | Rejected _ =>
                ([ConsoleError
                    ("Error fetching details for model " +:+ id +:+ ":")],
                 Fulfilled sentinel)
            end
        | Rejected _ =>
            ([ConsoleError
                ("Error fetching details for model " +:+ id +:+ ":")],
             Fulfilled sentinel)
        end
    | _, _ =>
        ([ConsoleError ("Error fetching details for model " +:+ id +:+ ":")],
         Fulfilled sentinel)
    end.
Proof.
  unfold fetchModelDetails_settle.
  destruct (sub_request rate_o) as [ratingResponse | e1],
           (sub_request cost_o) as [costResponse | e2];
    cbn [Promise_all lift bind try_catch]; try reflexivity.
  destruct (Object_values costResponse) as [values | e3]; [| reflexivity].
  cbn [lift bind try_catch ret app].
  destruct (ToString _) as [cost_text | e4]; reflexivity.
Qed.

(** After the two requests the function performs at most a console
    message. *)
Lemma fetchModelDetails_settle_effects rate_o cost_o id :
  (fetchModelDetails_settle rate_o cost_o id).1 = [] ∨
  (fetchModelDetails_settle rate_o cost_o id).1 =
    [ConsoleError ("Error fetching details for model " +:+ id +:+ ":")].
Proof.
  rewrite fetchModelDetails_settle_cases.
  destruct (sub_request rate_o) as [ratingResponse | e1],
           (sub_request cost_o) as [costResponse | e2];
    try (right; reflexivity).
  destruct (Object_values costResponse); [| right; reflexivity].
  destruct (ToString _); [left | right]; reflexivity.
Qed.

Lemma fetchModelDetails_unfold rate_o cost_o id model_type :
  fetchModelDetails rate_o cost_o id model_type =
    (fetchModelDetails_start id model_type
       ++ (fetchModelDetails_settle rate_o cost_o id).1,
     (fetchModelDetails_settle rate_o cost_o id).2).
Proof.
  unfold fetchModelDetails, bind.
  by destruct (fetchModelDetails_settle rate_o cost_o id).
Qed.

(** The rest of the function always returns a record. *)
Lemma fetchModelDetails_settle_total rate_o cost_o id :
  ∃ details, (fetchModelDetails_settle rate_o cost_o id).2 = Fulfilled details.
Proof.
  rewrite fetchModelDetails_settle_cases.
  destruct (sub_request rate_o) as [ratingResponse | e1],
           (sub_request cost_o) as [costResponse | e2];
    try (eexists; reflexivity).
  destruct (Object_values costResponse); [| eexists; reflexivity].
  destruct (ToString _); eexists; reflexivity.
Qed.

Lemma fetchModelDetails_settle_rejected rate_o cost_o id :
  rejects (sub_request rate_o) ∨ rejects (sub_request cost_o) →
  (fetchModelDetails_settle rate_o cost_o id).2 = Fulfilled sentinel.
Proof.
  rewrite fetchModelDetails_settle_cases.
  destruct (sub_request rate_o) as [ratingResponse | e1],
           (sub_request cost_o) as [costResponse | e2];
    cbn [rejects]; intros [[] | []]; reflexivity.
Qed.

(** Both sub-requests resolve and the cost payload has values: the record
    holds the cost with its unit when the cost has a string form, and is
    the sentinel when it has none. *)
Lemma fetchModelDetails_settle_resolved rate_o cost_o id
    (ratingResponse costResponse : JSValue number)
    (values : list (JSValue number)) :
  sub_request rate_o = Fulfilled ratingResponse →
  sub_request cost_o = Fulfilled costResponse →
  Object_values costResponse = Fulfilled values →
  (fetchModelDetails_settle rate_o cost_o id).2 =
    match ToString (coalesce (opt_member (first values) "total_cost")
                      (JString "N/A")) with
    | Fulfilled cost_text =>
        Fulfilled {| rating := coalesce (opt_member ratingResponse "net_score")
                                 (JString "N/A");
                     cost := cost_text +:+ " MB" |}
    | Rejected _ => Fulfilled sentinel
    end.
Proof.
  intros Hrate Hcost Hvalues.
  rewrite fetchModelDetails_settle_cases, Hrate, Hcost, Hvalues.
  by destruct (ToString _).
Qed.

Lemma fetchModelDetails_resolves rate_o cost_o id model_type :
  ∃ details,
    (fetchModelDetails rate_o cost_o id model_type).2 = Fulfilled details
    ∧ (rejects (sub_request rate_o) ∨ rejects (sub_request cost_o) →
       details = sentinel)
    ∧ (sub_request cost_o = Fulfilled JNull → details = sentinel).
Proof.
  rewrite fetchModelDetails_unfold. cbn [snd].
  destruct (fetchModelDetails_settle_total rate_o cost_o id) as [details Hd].
  exists details. split; [exact Hd |]. split.
  - intros Hr. pose proof (fetchModelDetails_settle_rejected _ _ id Hr) as Hs.
    congruence.
  - intros Hnull. revert Hd. rewrite fetchModelDetails_settle_cases, Hnull.
    destruct (sub_request rate_o); cbn; congruence.
Qed.

(** C5, as the code has it: [fetchModelDetails] never rejects.  When either
    sub-request rejects (no response, or a body that is not JSON), when the
    cost payload is [null], and when the [total_cost] found has no string
    form, it resolves with the record whose two fields are the sentinel.
    When both sub-requests resolve with JSON, whatever their HTTP status,
    and the first entry of the cost payload has a [total_cost] with a string
    form, the record holds that cost with its unit beside the [net_score] of
    the rating payload, or beside ["N/A"] when the rating payload has no
    [net_score]: a missing field does not make the record the sentinel. *)
Theorem fetchModelDetails_never_rejects rate_o cost_o id model_type :
  ∃ details,
    (fetchModelDetails rate_o cost_o id model_type).2 = Fulfilled details
    ∧ (rejects (sub_request rate_o) ∨ rejects (sub_request cost_o) →
       details = sentinel)
    ∧ (∀ e, rate_o = Failed e ∨ cost_o = Failed e → details = sentinel)
    ∧ (∀ r, rate_o = Responded r ∨ cost_o = Responded r → json r = None →
       details = sentinel)
    ∧ (sub_request cost_o = Fulfilled JNull → details = sentinel)
    ∧ (∀ rate_r cost_r ratingResponse costResponse values,
         rate_o = Responded rate_r → json rate_r = Some ratingResponse →
         cost_o = Responded cost_r → json cost_r = Some costResponse →
         Object_values costResponse = Fulfilled values →
         nullish (opt_member (first values) "total_cost") = false →
         (∀ cost_text,
            ToString (opt_member (first values) "total_cost") =
              Fulfilled cost_text →
            details =
              {| rating := coalesce (opt_member ratingResponse "net_score")
                             (JString "N/A");
                 cost := cost_text +:+ " MB" |})
         ∧ (rejects (ToString (opt_member (first values) "total_cost")) →
            details = sentinel)).
Proof.
  destruct (fetchModelDetails_resolves rate_o cost_o id model_type)
    as (details & Hd & Hrej & Hnull).
  exists details. split; [exact Hd |].
  split; [exact Hrej |]. split; [| split; [| split; [exact Hnull |]]].
  - intros e [-> | ->]; apply Hrej; [left | right]; exact I.
  - intros r [-> | ->] Hjson; apply Hrej; [left | right];
      unfold sub_request, Response_json; rewrite Hjson; exact I.
  - intros rate_r cost_r ratingResponse costResponse values
      -> Hrate -> Hcost Hvalues Hpresent.
    revert Hd. rewrite fetchModelDetails_unfold. cbn [snd].
    rewrite (fetchModelDetails_settle_resolved _ _ id
               ratingResponse costResponse values);
      [| by unfold sub_request, Response_json; rewrite ?Hrate, ?Hcost ..
       | exact Hvalues].
    unfold coalesce. rewrite Hpresent.
    destruct (ToString (opt_member (first values) "total_cost"))
      as [s | e]; intros [= <-]; split.
    + by intros cost_text [= <-].
    + intros [].
    + intros cost_text Hs. discriminate Hs.
    + reflexivity.
Qed.

(** C9: the rating request goes to [/artifact/model/{id}/rate] whatever the
    type of the artifact, the cost request to [/artifact/{type}/{id}/cost];
    these are the only two requests of a call. *)
Theorem fetchModelDetails_requests rate_o cost_o id model_type :
  requests (fetchModelDetails rate_o cost_o id model_type).1 =
    [GET (API_BASE_URL +:+ "/artifact/model/" +:+ id +:+ "/rate");
     GET (API_BASE_URL +:+ "/artifact/" +:+ model_type +:+ "/" +:+ id
            +:+ "/cost")]
  ∧ ∀ rate_o' cost_o' model_type',
      head (requests (fetchModelDetails rate_o' cost_o' id model_type').1) =
      head (requests (fetchModelDetails rate_o cost_o id model_type).1).
Proof.
  assert (Hreq : ∀ ro co t,
    requests (fetchModelDetails ro co id t).1 =
      [GET (rate_url id); GET (cost_url t id)]).
  { intros ro co t. rewrite fetchModelDetails_unfold. cbn [fst].
    unfold requests. rewrite omap_app.
    destruct (fetchModelDetails_settle_effects ro co id) as [-> | ->];
      reflexivity. }
  split; [apply Hreq |].
  intros rate_o' cost_o' model_type'. by rewrite !Hreq.
Qed.

(** C6, as the code has it: when both sub-requests resolve and the first
    entry of the cost payload has a [total_cost] that is neither [null] nor
    [undefined], be it a number or not, the cost returned is the string form
    of that value followed by [" MB"], and the sentinel when the value has
    no string form; when a sub-request rejects or the cost payload is
    [null] the cost returned is the sentinel. *)
Theorem fetchModelDetails_cost rate_o cost_o id model_type :
  ∃ details,
    (fetchModelDetails rate_o cost_o id model_type).2 = Fulfilled details
    ∧ (∀ ratingResponse costResponse values,
         sub_request rate_o = Fulfilled ratingResponse →
         sub_request cost_o = Fulfilled costResponse →
         Object_values costResponse = Fulfilled values →
         nullish (opt_member (first values) "total_cost") = false →
         (∀ cost_text,
            ToString (opt_member (first values) "total_cost") =
              Fulfilled cost_text →
            cost details = cost_text +:+ " MB")
         ∧ (∀ n, opt_member (first values) "total_cost" = JNumber n →
                 cost details = Number_toString n +:+ " MB")
         ∧ (rejects (ToString (opt_member (first values) "total_cost")) →
            cost details = "N/A"))
    ∧ (rejects (sub_request rate_o) ∨ rejects (sub_request cost_o)
       ∨ sub_request cost_o = Fulfilled JNull →
       cost details = "N/A").
Proof.
  destruct (fetchModelDetails_resolves rate_o cost_o id model_type)
    as (details & Hd & Hrej & Hnull).
  exists details. split; [exact Hd |]. split.
  - intros ratingResponse costResponse values Hrate Hcost Hvalues Hpresent.
    revert Hd. rewrite fetchModelDetails_unfold. cbn [snd].
    rewrite (fetchModelDetails_settle_resolved _ _ id
               ratingResponse costResponse values Hrate Hcost Hvalues).
    unfold coalesce. rewrite Hpresent.
    destruct (ToString (opt_member (first values) "total_cost"))
      as [s | e] eqn:Hstr; intros [= <-]; cbn [cost sentinel].
    + split; [by intros cost_text [= <-] |]. split; [| intros []].
      intros n Hn. rewrite Hn in Hstr. cbn [ToString] in Hstr.
      by injection Hstr as <-.
    + split; [intros cost_text Hs; discriminate Hs |]. split; [| done].
      intros n Hn. rewrite Hn in Hstr. discriminate Hstr.
  - intros [Hr | [Hr | Hn]].
    + by rewrite (Hrej (or_introl Hr)).
    + by rewrite (Hrej (or_intror Hr)).
    + by rewrite (Hnull Hn).
Qed.
End Details.

(** C5 as stated fails: a rating payload without [net_score], and likewise
    a rating answered with an HTTP error whose body is JSON, does not make
    the record the sentinel; the real cost is returned beside the rating
    ["N/A"]. *)
Lemma fetchModelDetails_partial_record :
  let cost_o : FetchOutcome Z :=
    Samples.json_ok (JObject [("a1", JObject [("total_cost", JNumber 12)])]) in
  let partial : Details Z := {| rating := JString "N/A"; cost := "12 MB" |} in
  (fetchModelDetails (Samples.json_ok (JObject [])) cost_o "a1" "model").2
    = Fulfilled partial
  ∧ (fetchModelDetails
       (Samples.reply 500 "Internal Server Error" ""
          (Some (JObject [("message", JString "rating failed")])))
       cost_o "a1" "model").2
    = Fulfilled partial
  ∧ partial ≠ sentinel.
Proof. repeat split; discriminate. Qed.

(** C6 as stated fails: a [total_cost] that is not a number is not replaced
    by the sentinel, it is formatted like a number would be. *)
Lemma fetchModelDetails_cost_not_numeric :
  let costResponse : JSValue Z :=
    JObject [("a1", JObject [("total_cost", JString "unknown")])] in
  (fetchModelDetails
     (Samples.json_ok (JObject [("net_score", JNumber 1)]))
     (Samples.json_ok costResponse) "a1" "model").2
  = Fulfilled {| rating := JNumber 1; cost := "unknown MB" |}
  ∧ cost_as_specified costResponse = "N/A".
Proof. split; reflexivity. Qed.

(** A [total_cost] that has no string form: the template literal throws
    inside the [try], and both fields are the sentinel. *)
Example fetchModelDetails_cost_without_string_form :
  (fetchModelDetails
     (Samples.json_ok (JObject [("net_score", JNumber 1)]))
     (Samples.json_ok
        (JObject [("a1", JObject [("total_cost",
                                   JObject [("toString", JNumber 1)])])]))
     "a1" "model").2
  = Fulfilled {| rating := JString "N/A"; cost := "N/A" |}.
Proof. reflexivity. Qed.

(** The rating request gets no response, the cost request succeeds: no
    cost is kept, both fields are the sentinel. *)
Example fetchModelDetails_rating_unreachable :
  (fetchModelDetails Samples.unreachable
     (Samples.json_ok (JObject [("a1", JObject [("total_cost", JNumber 12)])]))
     "a1" "model").2
  = Fulfilled {| rating := JString "N/A"; cost := "N/A" |}.
Proof. reflexivity. Qed.

(** A numeric [total_cost] of 12 is returned as ["12 MB"]. *)
Example fetchModelDetails_numeric_cost :
  (fetchModelDetails
     (Samples.json_ok (JObject [("net_score", JNumber 1)]))
     (Samples.json_ok (JObject [("a1", JObject [("total_cost", JNumber 12)])]))
     "a1" "model").2
  = Fulfilled {| rating := JNumber 1; cost := "12 MB" |}.
Proof. reflexivity. Qed.

Section Search.
Context {number : Type} `{JSNumber number} {engine : Engine}.
Implicit Types (list_o search_o : FetchOutcome number) (query : string).

Lemma whitespace_only_rev_app (s acc : string) :
  whitespace_only (String.rev_app s acc) =
    whitespace_only s && whitespace_only acc.
Proof.
  revert acc. induction s as [| c s IH]; intros acc; cbn; [done |].
  rewrite IH. cbn. destruct (is_white_space c), (whitespace_only s); done.
Qed.

Lemma whitespace_only_rev (s : string) :
  whitespace_only (String.rev s) = whitespace_only s.
Proof.
  unfold String.rev. rewrite whitespace_only_rev_app. cbn.
  by rewrite andb_true_r.
Qed.

Lemma whitespace_only_trimStart (s : string) :
  whitespace_only (trimStart s) = whitespace_only s.
Proof.
  induction s as [| c s IH]; cbn; [done |].
  destruct (is_white_space c) eqn:Hc; cbn; [exact IH | by rewrite Hc].
Qed.

Lemma trimStart_whitespace (s : string) :
  whitespace_only s = true → trimStart s = "".
Proof.
  induction s as [| c s IH]; cbn; [done |].
  destruct (is_white_space c); [exact IH | discriminate].
Qed.

(** The test of line 32 holds exactly for the strings made of white space
    only. *)
Lemma blank_whitespace_only query : blank query = whitespace_only query.
Proof.
  unfold blank, trim.
  destruct (whitespace_only query) eqn:Hws.
  - rewrite (trimStart_whitespace query Hws). cbn. apply orb_true_r.
  - assert (Hne : ∀ s, whitespace_only s = false → String.eqb s "" = false).
    { intros [| c s]; [discriminate | reflexivity]. }
    rewrite (Hne query Hws). cbn. apply Hne.
    by rewrite whitespace_only_rev, whitespace_only_trimStart,
      whitespace_only_rev, whitespace_only_trimStart.
Qed.

Lemma render_cards_requests (artifacts : list (JSValue number)) :
  requests (render_cards artifacts).1 = [].
Proof.
  induction artifacts as [| model rest IH]; [reflexivity |].
  cbn [render_cards]. unfold lift, bind, emit.
  destruct (createModelCard model); [| reflexivity].
  destruct (render_cards rest) as [effects result]. exact IH.
Qed.

Lemma forEach_card_requests (artifacts : JSValue number) :
  requests (forEach_card artifacts).1 = [].
Proof.
  destruct artifacts; try reflexivity. apply render_cards_requests.
Qed.

(** The list flow issues one request, the listing of all artifacts. *)
Lemma init_requests list_o : requests (init list_o).1 = [list_request].
Proof.
  unfold init, fetch, bind, emit, lift, try_catch.
  destruct list_o as [response | e]; [| reflexivity].
  destruct (ok response); cbn [negb]; [| reflexivity].
  unfold Response_json. destruct (json response) as [artifacts |];
    [| reflexivity].
  destruct (length_is_zero artifacts) as [[] | e]; try reflexivity.
  pose proof (forEach_card_requests artifacts) as Hcards.
  destruct (forEach_card artifacts) as [effects [[] | e]]; cbn in *;
    unfold requests in *; rewrite ?omap_app, Hcards; reflexivity.
Qed.

Lemma list_url_not_regex_url :
  req_url (list_request (number := number)) ≠ regex_url.
Proof.
  unfold list_request, regex_url. cbn [req_url].
  intros Heq. apply (f_equal String.length) in Heq.
  vm_compute in Heq. discriminate Heq.
Qed.

(** C7: for every query that is empty or made of white space only the search
    re-enables the button and the input, then runs the list flow ([init]),
    and issues no request to [/artifact/byRegEx]: its only request is the
    listing request of [init]. *)
Theorem searchArtifacts_blank list_o search_o (buttonHTML query : string) :
  whitespace_only query = true →
  searchArtifacts list_o search_o buttonHTML query =
    ([ConsoleLog "Empty search query. Redirecting to home (init).";
      SetDisabled searchButton false;
      SetDisabled searchInput false;
      ButtonHTML search_button_html]
       ++ (init list_o).1,
     Fulfilled tt)
  ∧ requests (searchArtifacts list_o search_o buttonHTML query).1 =
      [list_request]
  ∧ ∀ req, req ∈ requests (searchArtifacts list_o search_o buttonHTML query).1 →
           req_url req ≠ regex_url.
Proof.
  intros Hws.
  assert (Hrun : searchArtifacts list_o search_o buttonHTML query =
    ([ConsoleLog "Empty search query. Redirecting to home (init).";
      SetDisabled searchButton false;
      SetDisabled searchInput false;
      ButtonHTML search_button_html]
       ++ (init list_o).1,
     Fulfilled tt)).
  { unfold searchArtifacts. rewrite blank_whitespace_only, Hws.
    unfold spawn, bind, emit. reflexivity. }
  assert (Hreq : requests (searchArtifacts list_o search_o buttonHTML query).1
                 = [list_request]).
  { rewrite Hrun. cbn [fst]. unfold requests at 1. rewrite omap_app.
    cbn [omap]. apply init_requests. }
  split; [exact Hrun |]. split; [exact Hreq |].
  intros req. rewrite Hreq, list_elem_of_singleton. intros ->.
  apply list_url_not_regex_url.
Qed.

Lemma no_match_not_error query : no_match_html query ≠ search_error_html.
Proof.
  unfold no_match_html, search_error_html, placeholder, danger_placeholder, dq.
  cbn. intros Heq. discriminate Heq.
Qed.

(** C8: for every query that is not blank, a 404 from the regex search
    leaves the grid showing the no-match placeholder, while any other status
    outside 2xx, and a request that gets no response, leave it showing the
    error placeholder; the two markups differ for every query. *)
Theorem searchArtifacts_404_is_not_an_error list_o search_o
    (buttonHTML query : string) (view : string * list (JSValue number)) :
  whitespace_only query = false →
  let shown := grid view (searchArtifacts list_o search_o buttonHTML query).1 in
  (∀ r, search_o = Responded r → status r = 404 →
        shown = (no_match_html query, []))
  ∧ (∀ r, search_o = Responded r → ok r = false → status r ≠ 404 →
          shown = (search_error_html, []))
  ∧ (∀ e, search_o = Failed e → shown = (search_error_html, []))
  ∧ no_match_html query ≠ search_error_html.
Proof.
  intros Hws shown. subst shown.
  unfold searchArtifacts. rewrite blank_whitespace_only, Hws.
  unfold fetch, try_finally, try_catch, bind, emit, lift.
  split; [| split; [| split]].
  - intros r -> Hst.
    assert (Hok : ok r = false) by (unfold ok; rewrite Hst; reflexivity).
    rewrite Hok, Hst. reflexivity.
  - intros r -> Hok Hst. rewrite Hok.
    destruct (Z.eqb_spec (status r) 404); [contradiction | reflexivity].
  - intros e ->. reflexivity.
  - apply no_match_not_error.
Qed.
End Search.

Section Cache.
Context {number : Type} `{JSNumber number} {engine : Engine}.
Implicit Types (p : Page number) (model : Artifact).
Implicit Types (rate_o cost_o : FetchOutcome number).

Lemma last_char_app (a b : string) :
  b ≠ "" → last_char (a +:+ b) = last_char b.
Proof.
  intros Hb. induction a as [| c a IH]; [reflexivity |].
  change (String c a +:+ b) with (String c (a +:+ b)).
  rewrite <- IH. clear IH.
  destruct (a +:+ b) eqn:Happ; [| reflexivity].
  destruct a; [| discriminate Happ]. cbn in Happ. contradiction.
Qed.

Lemma last_char_app_Some (a b : string) (c : ascii) :
  last_char b = Some c → last_char (a +:+ b) = Some c.
Proof.
  intros Hb. rewrite last_char_app; [exact Hb |].
  intros ->. discriminate Hb.
Qed.

Lemma cost_url_not_rate_url (model_type i j : string) :
  cost_url model_type i ≠ rate_url j.
Proof.
  assert (Hcost : last_char (cost_url model_type i) = Some "t"%char)
    by (unfold cost_url; repeat apply last_char_app_Some; reflexivity).
  assert (Hrate : last_char (rate_url j) = Some "e"%char)
    by (unfold rate_url; repeat apply last_char_app_Some; reflexivity).
  intros Heq. rewrite Heq, Hrate in Hcost. discriminate Hcost.
Qed.

Lemma fetch_sequences_app (i : string) (l1 l2 : list (Effect number)) :
  fetch_sequences i (l1 ++ l2) = (fetch_sequences i l1 + fetch_sequences i l2)%nat.
Proof.
  unfold fetch_sequences, requests.
  by rewrite omap_app, filter_app, length_app.
Qed.

Lemma fetch_sequences_start (i model_type : string) :
  fetch_sequences i (fetchModelDetails_start (number := number) i model_type)
  = 1%nat.
Proof.
  unfold fetch_sequences, fetchModelDetails_start, requests.
  cbn -[filter rate_url cost_url].
  rewrite filter_cons_True by reflexivity.
  rewrite filter_cons_False by apply cost_url_not_rate_url.
  reflexivity.
Qed.

(** [openModelModal] appends the modal or throws before touching the
    page; it issues no request. *)
Lemma openModelModal_effects model (details : Details number) :
  (openModelModal model details).1 = [OpenModal model details] ∨
  (openModelModal model details).1 = [].
Proof.
  unfold openModelModal, bind, lift.
  destruct (ToString (rating details)); [left | right]; reflexivity.
Qed.

Lemma openModelModal_requests model (details : Details number) :
  requests (openModelModal model details).1 = [].
Proof. by destruct (openModelModal_effects model details) as [-> | ->]. Qed.

(** A request that finds the record in the cache issues no request and
    leaves no listener waiting. *)
Lemma click_cached p model (details : Details number) :
  id model ≠ "" →
  modelDetailsCache p !! id model = Some details →
  click model p =
    mkPage (modelDetailsCache p) (awaiting p)
      (log p ++ [ConsoleLog ("Card clicked, model ID: " +:+ id model);
                 ConsoleLog ("Using cached details for " +:+ id model)]
             ++ (openModelModal model details).1).
Proof.
  intros Hid Hhit. unfold click. rewrite Hhit.
  apply String.eqb_neq in Hid. rewrite Hid.
  by rewrite <- !app_assoc.
Qed.

Lemma click_details_cached p model (details : Details number) :
  modelDetailsCache p !! id model = Some details →
  click_details model p =
    mkPage (modelDetailsCache p) (awaiting p)
      (log p ++ (openModelModal model details).1).
Proof. intros Hhit. unfold click_details. by rewrite Hhit. Qed.

(** A request that finds no record starts the two requests and suspends. *)
Lemma click_miss p model :
  id model ≠ "" →
  modelDetailsCache p !! id model = None →
  click model p =
    mkPage (modelDetailsCache p) (awaiting p ++ [(CardListener, model)])
      (log p ++ [ConsoleLog ("Card clicked, model ID: " +:+ id model);
                 CardLoading (id model) true;
                 ConsoleLog ("Fetching details for " +:+ id model)]
             ++ fetchModelDetails_start (id model) (type model)).
Proof.
  intros Hid Hmiss. unfold click. rewrite Hmiss.
  apply String.eqb_neq in Hid. rewrite Hid.
  by rewrite <- !app_assoc.
Qed.

Lemma click_details_miss p model :
  modelDetailsCache p !! id model = None →
  click_details model p =
    mkPage (modelDetailsCache p) (awaiting p ++ [(DetailsListener, model)])
      (log p ++ [CardLoading (id model) true]
             ++ fetchModelDetails_start (id model) (type model)).
Proof. intros Hmiss. unfold click_details. by rewrite Hmiss. Qed.

(** Only [resume] writes the cache. *)
Lemma ask_cache p model (ev : Event number) :
  asks_details model ev →
  modelDetailsCache (step p ev) = modelDetailsCache p.
Proof.
  intros [-> | ->]; cbn [step]; unfold click, click_details.
  - destruct (String.eqb (id model) ""); [reflexivity |].
    by destruct (modelDetailsCache p !! id model).
  - by destruct (modelDetailsCache p !! id model).
Qed.

(** One request with no record in the cache: one more sub-fetch sequence,
    one more listener waiting. *)
Lemma ask_miss p model (ev : Event number) :
  id model ≠ "" →
  asks_details model ev →
  modelDetailsCache p !! id model = None →
  fetch_sequences (id model) (log (step p ev)) =
    S (fetch_sequences (id model) (log p))
  ∧ (awaiting (step p ev)).*2 = (awaiting p).*2 ++ [model].
Proof.
  intros Hid [-> | ->] Hmiss; cbn [step].
  - rewrite (click_miss p model Hid Hmiss). cbn [log awaiting].
    rewrite !fetch_sequences_app, fetch_sequences_start, fmap_app.
    split; [cbn; lia | reflexivity].
  - rewrite (click_details_miss p model Hmiss). cbn [log awaiting].
    rewrite !fetch_sequences_app, fetch_sequences_start, fmap_app.
    split; [cbn; lia | reflexivity].
Qed.

(** One request with the record in the cache: no request, nobody waits. *)
Lemma ask_cached p model (ev : Event number) (details : Details number) :
  id model ≠ "" →
  asks_details model ev →
  modelDetailsCache p !! id model = Some details →
  requests (log (step p ev)) = requests (log p)
  ∧ awaiting (step p ev) = awaiting p.
Proof.
  intros Hid [-> | ->] Hhit; cbn [step].
  - rewrite (click_cached p model details Hid Hhit). cbn [log awaiting].
    split; [| reflexivity].
    pose proof (openModelModal_requests model details) as Hopen.
    unfold requests in *. rewrite !omap_app, Hopen. cbn [omap].
    by rewrite !app_nil_r.
  - rewrite (click_details_cached p model details Hhit). cbn [log awaiting].
    split; [| reflexivity].
    pose proof (openModelModal_requests model details) as Hopen.
    unfold requests in *. rewrite omap_app, Hopen. by rewrite app_nil_r.
Qed.

(** A resumed listener stores the record its fetch resolved with and issues
    no request. *)
Lemma resume_stores p (k : nat) (listener : Listener) model rate_o cost_o :
  awaiting p !! k = Some (listener, model) →
  ∃ details,
    (fetchModelDetails_settle rate_o cost_o (id model)).2 = Fulfilled details
    ∧ modelDetailsCache (resume k rate_o cost_o p) =
        <[id model := details]> (modelDetailsCache p)
    ∧ awaiting (resume k rate_o cost_o p) = delete k (awaiting p)
    ∧ requests (log (resume k rate_o cost_o p)) = requests (log p).
Proof.
  intros Hk. unfold resume. rewrite Hk.
  destruct (fetchModelDetails_settle_total rate_o cost_o (id model))
    as [details Hd].
  pose proof (fetchModelDetails_settle_effects rate_o cost_o (id model)) as He.
  destruct (fetchModelDetails_settle rate_o cost_o (id model))
    as [effects result].
  cbn [fst snd] in Hd, He. subst result. exists details.
  cbn [modelDetailsCache awaiting log].
  repeat split.
  pose proof (openModelModal_requests model details) as Hopen.
  assert (Hshown : requests
            (try_catch (on_details listener model details)
               (λ err, (on_failure listener model err, Fulfilled tt))).1 = []).
  { destruct listener; unfold on_details, try_catch, bind, emit;
      destruct (openModelModal model details) as [t [[] | e]];
      cbn [fst] in Hopen; cbn; unfold requests in *;
      rewrite ?omap_app, ?Hopen; reflexivity. }
  unfold requests in *. rewrite !omap_app, Hshown.
  destruct He as [-> | ->]; cbn [omap]; by rewrite ?app_nil_r.
Qed.

Lemma asks_miss model (events : list (Event number)) :
  id model ≠ "" →
  Forall (asks_details model) events →
  ∀ p, modelDetailsCache p !! id model = None →
    fetch_sequences (id model) (log (run events p)) =
      (fetch_sequences (id model) (log p) + length events)%nat
    ∧ (awaiting (run events p)).*2 =
        (awaiting p).*2 ++ replicate (length events) model.
Proof.
  intros Hid Hall. induction Hall as [| ev events Hev _ IH]; intros p Hmiss.
  - cbn. by rewrite Nat.add_0_r, app_nil_r.
  - cbn [run foldl length replicate].
    destruct (IH (step p ev)) as [Hseq Hwait];
      [by rewrite (ask_cache p model ev Hev) |].
    unfold run in Hseq, Hwait. rewrite Hseq, Hwait.
    destruct (ask_miss p model ev Hid Hev Hmiss) as [-> ->].
    split; [lia | by rewrite <- app_assoc].
Qed.

Lemma asks_cached model (events : list (Event number))
    (details : Details number) :
  id model ≠ "" →
  Forall (asks_details model) events →
  ∀ p, modelDetailsCache p !! id model = Some details →
    requests (log (run events p)) = requests (log p)
    ∧ awaiting (run events p) = awaiting p.
Proof.
  intros Hid Hall. induction Hall as [| ev events Hev _ IH]; intros p Hhit;
    [done |].
  cbn [run foldl].
  destruct (IH (step p ev)) as [Hreq Hwait];
    [by rewrite (ask_cache p model ev Hev) |].
  unfold run in Hreq, Hwait. rewrite Hreq, Hwait.
  exact (ask_cached p model ev details Hid Hev Hhit).
Qed.

(** C2, as the code has it: the cache holds resolved records only, so every
    request for the details of an id made while the cache has no record for
    it starts a sub-fetch sequence of its own: [n] requests made before the
    first one resolves perform [n] sequences and leave [n] listeners
    waiting.  Only requests made once a record is in the cache, in
    particular after a pending request has resolved, perform no network
    call. *)
Theorem requests_fetch_unless_cached p model (events : list (Event number)) :
  id model ≠ "" →
  Forall (asks_details model) events →
  let p' := run events p in
  (modelDetailsCache p !! id model = None →
     fetch_sequences (id model) (log p') =
       (fetch_sequences (id model) (log p) + length events)%nat
     ∧ (awaiting p').*2 = (awaiting p).*2 ++ replicate (length events) model)
  ∧ (∀ details, modelDetailsCache p !! id model = Some details →
       requests (log p') = requests (log p) ∧ awaiting p' = awaiting p)
  ∧ (∀ (k : nat) (listener : Listener) rate_o cost_o,
       awaiting p !! k = Some (listener, model) →
       requests (log (run events (resume k rate_o cost_o p)))
       = requests (log p)).
Proof.
  intros Hid Hall p'. subst p'. split; [| split].
  - by apply asks_miss.
  - intros details. by apply asks_cached.
  - intros k listener rate_o cost_o Hk.
    destruct (resume_stores p k listener model rate_o cost_o Hk)
      as (details & _ & Hcache & _ & Hreq).
    rewrite <- Hreq.
    apply (asks_cached model events details Hid Hall).
    rewrite Hcache. apply lookup_insert_eq.
Qed.

(** C3, as the code has it: [fetchModelDetails] turns a failed fetch into
    the sentinel record and the listener stores whatever record it gets, so
    after a failed fetch the cache holds the sentinel record for the id and
    the next request for the id is served from the cache, with no fetch;
    every record a fetch resolves with is retained. *)
Theorem failed_details_are_cached p (k : nat) (listener : Listener) model
    rate_o cost_o :
  awaiting p !! k = Some (listener, model) →
  let p' := resume k rate_o cost_o p in
  (∃ details,
     (fetchModelDetails_settle rate_o cost_o (id model)).2 = Fulfilled details
     ∧ modelDetailsCache p' !! id model = Some details)
  ∧ (rejects (sub_request rate_o) ∨ rejects (sub_request cost_o) →
     modelDetailsCache p' !! id model = Some sentinel
     ∧ log (click_details model p') = log p' ++ [OpenModal model sentinel]
     ∧ (id model ≠ "" →
        log (click model p') =
          log p' ++ [ConsoleLog ("Card clicked, model ID: " +:+ id model);
                     ConsoleLog ("Using cached details for " +:+ id model);
                     OpenModal model sentinel])
     ∧ (id model ≠ "" → ∀ ev, asks_details model ev →
        requests (log (step p' ev)) = requests (log p')
        ∧ awaiting (step p' ev) = awaiting p')).
Proof.
  intros Hk p'. subst p'.
  destruct (resume_stores p k listener model rate_o cost_o Hk)
    as (details & Hd & Hcache & _ & _).
  assert (Hhit : modelDetailsCache (resume k rate_o cost_o p) !! id model
                 = Some details)
    by (rewrite Hcache; apply lookup_insert_eq).
  split; [by exists details |].
  intros Hrej.
  rewrite (fetchModelDetails_settle_rejected _ _ (id model) Hrej) in Hd.
  injection Hd as <-. split; [exact Hhit |]. split; [| split].
  - by rewrite (click_details_cached _ model sentinel Hhit).
  - intros Hid. by rewrite (click_cached _ model sentinel Hid Hhit).
  - intros Hid ev Hev. exact (ask_cached _ model ev sentinel Hid Hev Hhit).
Qed.
End Cache.

(** C2 as stated fails: two clicks on the same card before the first fetch
    resolves start two sub-fetch sequences and leave two listeners
    waiting. *)
Lemma two_clicks_two_fetches :
  let p := run [Click Samples.bert; Click Samples.bert] (initial (number := Z)) in
  fetch_sequences "a1" (log p) = 2%nat
  ∧ ¬ fetch_sequences "a1" (log p) = 1%nat
  ∧ awaiting p = [(CardListener, Samples.bert); (CardListener, Samples.bert)]
  ∧ requests (log p) =
      [GET (rate_url "a1"); GET (cost_url "model" "a1");
       GET (rate_url "a1"); GET (cost_url "model" "a1")].
Proof.
  cbv zeta.
  assert (Hseq : fetch_sequences "a1"
            (log (run [Click Samples.bert; Click Samples.bert]
                    (initial (number := Z)))) = 2%nat)
    by (vm_compute; reflexivity).
  rewrite Hseq. repeat split. discriminate.
Qed.

(** Three requests before any fetch resolves: three sequences. *)
Lemma requests_fetch_unless_cached_witness :
  fetch_sequences "a1"
    (log (run [Click Samples.bert; ClickDetails Samples.bert;
               Click Samples.bert]
            (initial (number := Z))))
  = 3%nat.
Proof.
  destruct (requests_fetch_unless_cached (initial (number := Z)) Samples.bert
              [Click Samples.bert; ClickDetails Samples.bert;
               Click Samples.bert])
    as (Hmiss & _).
  - discriminate.
  - repeat (constructor; [first [left; reflexivity | right; reflexivity] |]).
    constructor.
  - destruct Hmiss as [Hseq _]; [reflexivity |]. exact Hseq.
Defined.

(** C3 as stated fails: after a fetch whose two requests got no response the
    cache holds an entry for the id, the sentinel record, and a new click
    is served from it without a fetch. *)
Lemma failed_fetch_leaves_entry :
  let p := run [Click Samples.bert;
                Settle 0 Samples.unreachable Samples.unreachable]
             (initial (number := Z)) in
  modelDetailsCache p !! "a1" = Some sentinel
  ∧ modelDetailsCache p !! "a1" ≠ None
  ∧ requests (log (click Samples.bert p)) = requests (log p).
Proof.
  intros p.
  assert (Hhit : modelDetailsCache p !! "a1" = Some sentinel).
  { subst p. unfold run. cbn [foldl step].
    destruct (resume_stores (click Samples.bert (initial (number := Z))) 0
                CardListener Samples.bert Samples.unreachable
                Samples.unreachable eq_refl)
      as (details & Hd & Hcache & _ & _).
    rewrite Hcache. change (id Samples.bert) with "a1".
    rewrite lookup_insert_eq.
    rewrite (fetchModelDetails_settle_rejected _ _ "a1") in Hd
      by (left; exact I).
    congruence. }
  split; [exact Hhit |]. split; [rewrite Hhit; discriminate |].
  rewrite (click_cached p Samples.bert sentinel); [| discriminate | exact Hhit].
  cbn [log]. unfold requests. rewrite !omap_app. cbn.
  by rewrite app_nil_r.
Qed.

(** The same run, through the theorem. *)
Lemma failed_details_are_cached_witness :
  modelDetailsCache
    (resume 0 Samples.unreachable Samples.unreachable
       (click Samples.bert (initial (number := Z)))) !! "a1"
  = Some sentinel.
Proof.
  destruct (failed_details_are_cached
              (click Samples.bert (initial (number := Z))) 0 CardListener
              Samples.bert Samples.unreachable Samples.unreachable eq_refl)
    as [_ Hfailed].
  destruct Hfailed as [Hcache _]; [left; exact I |].
  exact Hcache.
Defined.

(** The query of three spaces goes to the list flow. *)
Lemma searchArtifacts_blank_witness :
  requests
    (searchArtifacts (Samples.json_ok (JArray [])) Samples.unreachable
       search_button_html "   ").1
  = [list_request].
Proof.
  apply (searchArtifacts_blank (Samples.json_ok (JArray []))
           Samples.unreachable search_button_html "   ").
  reflexivity.
Defined.

(** The query [bert]: a 404 shows the no-match placeholder, not the error
    placeholder. *)
Lemma searchArtifacts_404_is_not_an_error_witness :
  let shown :=
    grid ("", [])
      (searchArtifacts (Samples.json_ok (JArray []))
         (Samples.reply 404 "Not Found" "" None) search_button_html "bert").1 in
  shown = (no_match_html "bert", []) ∧ shown.1 ≠ search_error_html.
Proof.
  intros shown.
  destruct (searchArtifacts_404_is_not_an_error
              (Samples.json_ok (JArray []))
              (Samples.reply 404 "Not Found" "" None)
              search_button_html "bert" ("", []) eq_refl)
    as (H404 & _ & _ & Hdiff).
  subst shown. rewrite (H404 _ eq_refl eq_refl). split; [reflexivity |].
  exact Hdiff.
Defined.

End AppSpec.

(** * More properties of contribute.js *)
Module ContributeMore.
Import Contribute ContributeSpec.

Section RetryMore.
Context {number : Type} `{JSNumber number} {engine : Engine}.
Implicit Types (net : nat → FetchOutcome number) (req : Request number).

(** The [try] block returns exactly the 2xx responses. *)
Lemma try_block_cases (o : FetchOutcome number) :
  (∃ r, o = Responded r ∧ ok r = true ∧ try_block o = Fulfilled r)
  ∨ (∃ e, try_block o = Rejected e
          ∧ ∀ r, o = Responded r → ok r = false).
Proof.
  destruct o as [r | e]; cbn [try_block].
  - destruct (ok r) eqn:Hok; [left; eauto |].
    right. destruct (not_retriable (status r)); eexists;
      (split; [reflexivity | intros r' [= <-]; exact Hok]).
  - right. exists e. split; [reflexivity | discriminate].
Qed.

(** Among the first [n] attempts either one is the first to get a 2xx or all
    of them fail. *)
Lemma first_success_or_all_fail net (n : nat) :
  (∃ j r, (j < n)%nat ∧ net j = Responded r ∧ ok r = true
          ∧ try_block (net j) = Fulfilled r
          ∧ ∀ k, (k < j)%nat → ∃ e, try_block (net k) = Rejected e)
  ∨ (∀ k, (k < n)%nat → ∃ e, try_block (net k) = Rejected e).
Proof.
  induction n as [| n [(j & r & Hj & Hrest) | Hall]].
  - right. intros k Hk. lia.
  - left. exists j, r. split; [lia | exact Hrest].
  - destruct (try_block_cases (net n)) as [(r & Hn & Hok & Htry) | (e & He & _)].
    + left. exists n, r. split; [lia |]. split; [exact Hn |].
      split; [exact Hok |]. split; [exact Htry |]. exact Hall.
    + right. intros k Hk.
      destruct (decide (k = n)) as [-> | Hne]; [eauto | apply Hall; lia].
Qed.

(** Whatever the outcomes, a call with [maxRetries >= 1] runs attempts
    [0 .. j] for some [j < maxRetries], with the wait [2^k * 1000] after each
    attempt but the last one. *)
Lemma fetchWithRetry_runs net req (maxRetries : nat) :
  (1 ≤ maxRetries)%nat →
  ∃ j, (j < maxRetries)%nat
       ∧ (fetchWithRetry net req maxRetries).1 = schedule req j
       ∧ ((∃ r, net j = Responded r ∧ ok r = true
                ∧ (∀ k r', (k < j)%nat → net k = Responded r' → ok r' = false)
                ∧ (fetchWithRetry net req maxRetries).2 = Fulfilled (Some r))
          ∨ (j = (maxRetries - 1)%nat
             ∧ (∀ k r', (k < maxRetries)%nat → net k = Responded r' →
                        ok r' = false)
             ∧ ∃ e, try_block (net j) = Rejected e
                    ∧ (fetchWithRetry net req maxRetries).2 = Rejected e)).
Proof.
  intros Hpos.
  assert (Hnot_ok : ∀ k, (∃ e, try_block (net k) = Rejected e) →
                         ∀ r', net k = Responded r' → ok r' = false).
  { intros k [e He] r' Hk.
    destruct (try_block_cases (net k)) as [(r & _ & _ & Hr) | (_ & _ & Hno)];
      [congruence | by apply Hno]. }
  destruct (first_success_or_all_fail net maxRetries)
    as [(j & r & Hj & Hnet & Hok & Htry & Hbefore) | Hall].
  - exists j. split; [exact Hj |].
    rewrite (fetchWithRetry_resolves_at net req maxRetries j r Hj Hbefore Htry).
    split; [reflexivity |]. left. exists r. split; [exact Hnet |].
    split; [exact Hok |]. split; [| reflexivity].
    intros k r' Hk. apply Hnot_ok, Hbefore, Hk.
  - destruct (Hall (maxRetries - 1)%nat ltac:(lia)) as [e He].
    exists (maxRetries - 1)%nat. split; [lia |].
    rewrite (fetchWithRetry_exhausted net req maxRetries e Hpos); [| | exact He].
    + split; [reflexivity |]. right. split; [reflexivity |]. split.
      * intros k r' Hk. apply Hnot_ok, Hall, Hk.
      * exists e. split; [exact He | reflexivity].
    + intros k Hk. apply Hall. lia.
Qed.

(** X1: [fetchWithRetry] resolves with a response exactly when one of the
    first [maxRetries] attempts is answered with a 2xx status, and then with
    the first such response; it never resolves with a response outside
    2xx. *)
Theorem fetchWithRetry_resolves_iff net req (maxRetries : nat)
    (r : Response number) :
  (fetchWithRetry net req maxRetries).2 = Fulfilled (Some r)
  ↔ ∃ j, (j < maxRetries)%nat ∧ net j = Responded r ∧ ok r = true
         ∧ ∀ k r', (k < j)%nat → net k = Responded r' → ok r' = false.
Proof.
  split.
  - intros Hres.
    destruct maxRetries as [| m]; [discriminate Hres |].
    destruct (fetchWithRetry_runs net req (S m) ltac:(lia))
      as (j & Hj & _ & [(r' & Hnet & Hok & Hbefore & Hr) | (_ & _ & e & _ & Hr)]).
    + rewrite Hr in Hres. injection Hres as <-. eauto.
    + rewrite Hr in Hres. discriminate Hres.
  - intros (j & Hj & Hnet & Hok & Hbefore).
    rewrite (fetchWithRetry_resolves_at net req maxRetries j r Hj);
      [reflexivity | |].
    + intros k Hk.
      destruct (try_block_cases (net k)) as [(r' & Hk' & Hok' & _) | (e & He & _)];
        [| eauto].
      rewrite (Hbefore k r' Hk Hk') in Hok'. discriminate Hok'.
    + rewrite Hnet. cbn [try_block]. by rewrite Hok.
Qed.


(** X3: the call rejects only after all [maxRetries] attempts have been
    made, none of them answered 2xx, whatever the statuses were, and then
    with the error of the last attempt. *)
Theorem fetchWithRetry_rejects_exhausted net req (maxRetries : nat)
    (e : JSError) :
  (fetchWithRetry net req maxRetries).2 = Rejected e →
  (1 ≤ maxRetries)%nat
  ∧ attempts_made (fetchWithRetry net req maxRetries).1 = seq 0 maxRetries
  ∧ try_block (net (maxRetries - 1)%nat) = Rejected e
  ∧ ∀ k r, (k < maxRetries)%nat → net k = Responded r → ok r = false.
Proof.
  intros Hrej.
  destruct maxRetries as [| m]; [discriminate Hrej |].
  split; [lia |].
  destruct (fetchWithRetry_runs net req (S m) ltac:(lia))
    as (j & Hj & Heff & [(r & _ & _ & _ & Hr) | (-> & Hall & e' & He' & Hr)]).
  - rewrite Hr in Hrej. discriminate Hrej.
  - rewrite Hr in Hrej. injection Hrej as <-.
    rewrite Heff, attempts_made_schedule.
    replace (S (S m - 1)) with (S m) by lia. done.
Qed.

(** X4: when the last attempt is answered with status 400, 403, 409 or 424
    after failed attempts only, the call rejects with the error
    [API Error (status): body], the status text standing for an empty
    body. *)
Theorem fetchWithRetry_last_not_retriable net req (maxRetries : nat)
    (r : Response number) :
  (1 ≤ maxRetries)%nat →
  (∀ k r', (k < maxRetries - 1)%nat → net k = Responded r' → ok r' = false) →
  net (maxRetries - 1)%nat = Responded r →
  not_retriable (status r) = true →
  (fetchWithRetry net req maxRetries).2 =
    Rejected (mkError Error
      ("API Error (" +:+ Z_toString (status r) +:+ "): "
         +:+ (if String.eqb (text r) "" then statusText r else text r))).
Proof.
  intros Hpos Hbefore Hlast Hterm.
  rewrite (fetchWithRetry_exhausted net req maxRetries
             (mkError Error
                ("API Error (" +:+ Z_toString (status r) +:+ "): "
                   +:+ string_or (text r) (statusText r))) Hpos);
    [reflexivity | |].
  - intros k Hk.
    destruct (try_block_cases (net k)) as [(r' & Hk' & Hok' & _) | (e & He & _)];
      [| eauto].
    rewrite (Hbefore k r' Hk Hk') in Hok'. discriminate Hok'.
  - rewrite Hlast. apply not_retriable_throws, Hterm.
Qed.
End RetryMore.


Lemma fetchWithRetry_rejects_exhausted_witness :
  attempts_made
    (fetchWithRetry (Samples.script (replicate 3 (Responded Samples.conflict)))
       Samples.post 3).1 = [0; 1; 2]%nat.
Proof.
  apply (fetchWithRetry_rejects_exhausted
           (Samples.script (replicate 3 (Responded Samples.conflict)))
           Samples.post 3
           (mkError Error "API Error (409): Artifact exists")).
  reflexivity.
Defined.

Lemma fetchWithRetry_last_not_retriable_witness :
  (fetchWithRetry (Samples.script [Responded Samples.conflict]) Samples.post 1).2
  = Rejected (mkError Error "API Error (409): Artifact exists").
Proof.
  apply (fetchWithRetry_last_not_retriable
           (Samples.script [Responded Samples.conflict]) Samples.post 1
           Samples.conflict).
  - lia.
  - intros k r' Hk. lia.
  - reflexivity.
  - reflexivity.
Defined.

Section SubmitMore.
Context {number : Type} `{JSNumber number} {engine : Engine}.
Implicit Types (net : nat → FetchOutcome number) (req : Request number).

Lemma on_response_any (nameInput : option string)
    (response : option (Response number)) :
  (∃ e, on_response nameInput response = ([], Rejected e))
  ∨ (∃ s, on_response nameInput response =
            ([MessageText s; MessageClass "message-container success"],
             Fulfilled tt)).
Proof.
  destruct response as [r |]; [| left; eexists; reflexivity].
  destruct (on_response_cases nameInput r) as [He | [_ Hs]]; [left | right];
    assumption.
Qed.

(** Every run of the listener: the lock, the effects of [fetchWithRetry],
    one message, the unlock. *)
Lemma submit_run net (nameInput : option string) (typeValue urlValue : string) :
  ∃ handled,
    submit net nameInput typeValue urlValue =
      ([SubmitDisabled true; SubmitHTML submitting_html;
        MessageClass "message-container hidden"]
         ++ (fetchWithRetry net (submit_request typeValue (trim urlValue)) 3).1
         ++ handled
         ++ [SubmitDisabled false; SubmitHTML submit_html],
       Fulfilled tt)
    ∧ ((∃ s, handled =
               [MessageText s; MessageClass "message-container success"])
       ∨ (∃ e, handled =
                 [ConsoleError e;
                  MessageText ("Submission Failed: " +:+ message e
                                 +:+ ". Please try again.");
                  MessageClass "message-container error"]
               ∧ ((fetchWithRetry net
                     (submit_request typeValue (trim urlValue)) 3).2
                  = Rejected e
                  ∨ ∃ response,
                      (fetchWithRetry net
                         (submit_request typeValue (trim urlValue)) 3).2
                      = Fulfilled response
                      ∧ on_response nameInput response = ([], Rejected e)))).
Proof.
  unfold submit. cbn zeta.
  destruct (fetchWithRetry net (submit_request typeValue (trim urlValue)) 3)
    as [sent [response | e]].
  - destruct (on_response_any nameInput response) as [[e He] | [s Hs]].
    + exists (on_error e).1.
      split; [| right; exists e; split; [reflexivity | right; eauto]].
      unfold try_finally, try_catch, bind, emit. rewrite He.
      cbn -[String.append]. by rewrite <- ?app_assoc, ?app_nil_r.
    + exists [MessageText s; MessageClass "message-container success"].
      split; [| left; exists s; reflexivity].
      unfold try_finally, try_catch, bind, emit. rewrite Hs.
      cbn -[String.append]. by rewrite <- ?app_assoc, ?app_nil_r.
  - exists (on_error e).1.
    split; [| right; exists e; split; [reflexivity | left; reflexivity]].
    unfold try_finally, try_catch, bind, emit.
    cbn -[String.append]. by rewrite <- ?app_assoc, ?app_nil_r.
Qed.

(** X5: the submit listener never rejects; whatever the network does it
    disables the button first and re-enables it last, and nothing in between
    touches the [disabled] flag, so the button is locked for the whole
    submission and free afterwards. *)
Theorem submit_unlocks net (nameInput : option string)
    (typeValue urlValue : string) :
  ∃ middle,
    submit net nameInput typeValue urlValue =
      ([SubmitDisabled true; SubmitHTML submitting_html;
        MessageClass "message-container hidden"]
         ++ middle
         ++ [SubmitDisabled false; SubmitHTML submit_html],
       Fulfilled tt)
    ∧ ∀ b, SubmitDisabled b ∉ middle.
Proof.
  destruct (submit_run net nameInput typeValue urlValue)
    as (handled & Hrun & Hhandled).
  exists ((fetchWithRetry net (submit_request typeValue (trim urlValue)) 3).1
            ++ handled).
  split; [by rewrite Hrun, <- app_assoc |].
  intros b. rewrite elem_of_app. intros [Hin | Hin].
  - pose proof (retry_loop_network net
                  (submit_request typeValue (trim urlValue)) 3 (seq 0 3))
      as Hnet.
    rewrite Forall_forall in Hnet. exact (Hnet _ Hin).
  - destruct Hhandled as [[s ->] | (e & -> & _)];
      repeat (apply elem_of_cons in Hin as [Hin | Hin]; [discriminate Hin |]);
      by apply elem_of_nil in Hin.
Qed.

(** X6: every submission ends with exactly one report to the user: the
    success message or the failure message, never both and never none. *)
Theorem submit_reports_once net (nameInput : option string)
    (typeValue urlValue : string) :
  let effects := (submit net nameInput typeValue urlValue).1 in
  (reports_success effects ∧ ¬ reports_failure effects)
  ∨ (reports_failure effects ∧ ¬ reports_success effects).
Proof.
  cbv zeta.
  destruct (submit_run net nameInput typeValue urlValue)
    as (handled & Hrun & Hhandled).
  rewrite Hrun. cbn [fst]. unfold reports_success, reports_failure.
  pose proof (retry_loop_network net
                (submit_request typeValue (trim urlValue)) 3 (seq 0 3))
    as Hnet.
  fold (fetchWithRetry net (submit_request typeValue (trim urlValue)) 3)
    in Hnet.
  rewrite !(message_class_of_submit _ _ handled Hnet).
  destruct Hhandled as [[s ->] | (e & -> & _)]; [left | right];
    (split; [right; rewrite !elem_of_cons; tauto |]);
    rewrite !elem_of_cons, elem_of_nil;
    intros [Heq | Hin]; try discriminate Heq;
    repeat (destruct Hin as [Heq | Hin]; [discriminate Heq |]);
    exact Hin.
Qed.

Lemma attempts_made_app (l1 l2 : list (Effect number)) :
  attempts_made (l1 ++ l2) = attempts_made l1 ++ attempts_made l2.
Proof. apply omap_app. Qed.




(** X8: when none of the three attempts is answered 2xx the run is the
    lock, the three attempts with their two waits, one console message and
    one failure message, both built from the error of the third attempt,
    and the unlock.  The errors of the first two attempts are not reported:
    every message shown and every error logged is the one of the third
    attempt. *)
Theorem submit_shows_last_error net (nameInput : option string)
    (typeValue urlValue : string) (e : JSError) :
  (∀ k r, (k < 3)%nat → net k = Responded r → ok r = false) →
  try_block (net 2%nat) = Rejected e →
  let effects := (submit net nameInput typeValue urlValue).1 in
  effects =
    [SubmitDisabled true; SubmitHTML submitting_html;
     MessageClass "message-container hidden"]
      ++ schedule (submit_request typeValue (trim urlValue)) 2
      ++ [ConsoleError e;
          MessageText ("Submission Failed: " +:+ message e
                         +:+ ". Please try again.");
          MessageClass "message-container error"]
      ++ [SubmitDisabled false; SubmitHTML submit_html]
  ∧ (∀ s, MessageText s ∈ effects →
          s = "Submission Failed: " +:+ message e +:+ ". Please try again.")
  ∧ (∀ e', ConsoleError e' ∈ effects → e' = e)
  ∧ MessageText ("Submission Failed: " +:+ message e +:+ ". Please try again.")
      ∈ effects
  ∧ reports_failure effects
  ∧ attempts_made effects = [0; 1; 2]%nat.
Proof.
  intros Hfail Hlast. cbv zeta.
  assert (Hrun : fetchWithRetry net
                   (submit_request typeValue (trim urlValue)) 3
                 = (schedule (submit_request typeValue (trim urlValue)) 2,
                    Rejected e)).
  { apply (fetchWithRetry_exhausted net _ 3 e); [lia | | exact Hlast].
    intros k Hk.
    destruct (try_block_cases (net k)) as [(r & Hk' & Hok & _) | (e' & He' & _)];
      [| eauto].
    rewrite (Hfail k r ltac:(lia) Hk') in Hok. discriminate Hok. }
  assert (Heffects : (submit net nameInput typeValue urlValue).1 =
    [SubmitDisabled true; SubmitHTML submitting_html;
     MessageClass "message-container hidden"]
      ++ schedule (submit_request typeValue (trim urlValue)) 2
      ++ [ConsoleError e;
          MessageText ("Submission Failed: " +:+ message e
                         +:+ ". Please try again.");
          MessageClass "message-container error"]
      ++ [SubmitDisabled false; SubmitHTML submit_html]).
  { unfold submit. cbn zeta. rewrite Hrun.
    unfold try_finally, try_catch, bind, emit, on_error, showMessage.
    cbn -[String.append schedule]. by rewrite <- ?app_assoc, ?app_nil_r. }
  assert (Hnet : Forall (is_network (number := number))
                   (schedule (submit_request typeValue (trim urlValue)) 2)).
  { pose proof (retry_loop_network net
                  (submit_request typeValue (trim urlValue)) 3 (seq 0 3))
      as Hloop.
    unfold fetchWithRetry in Hrun. by rewrite Hrun in Hloop. }
  rewrite Forall_forall in Hnet.
  rewrite Heffects. unfold reports_failure.
  split; [reflexivity |]. split; [| split; [| split; [| split]]].
  - intros s. rewrite !elem_of_app, !elem_of_cons, !elem_of_nil.
    intros [Hin | [Hin | [Hin | Hin]]].
    + destruct Hin as [Heq | [Heq | [Heq | []]]]; discriminate Heq.
    + destruct (Hnet _ Hin).
    + destruct Hin as [Heq | [Heq | [Heq | []]]]; congruence.
    + destruct Hin as [Heq | [Heq | []]]; discriminate Heq.
  - intros e'. rewrite !elem_of_app, !elem_of_cons, !elem_of_nil.
    intros [Hin | [Hin | [Hin | Hin]]].
    + destruct Hin as [Heq | [Heq | [Heq | []]]]; discriminate Heq.
    + destruct (Hnet _ Hin).
    + destruct Hin as [Heq | [Heq | [Heq | []]]]; congruence.
    + destruct Hin as [Heq | [Heq | []]]; discriminate Heq.
  - rewrite !elem_of_app, !elem_of_cons. tauto.
  - rewrite !elem_of_app, !elem_of_cons. tauto.
  - rewrite !attempts_made_app. reflexivity.
Qed.
End SubmitMore.

(** Three attempts answered 500: the failure is reported, and the only
    error logged is the one of the third attempt. *)
Lemma submit_shows_last_error_witness :
  let effects :=
    (submit (Samples.script (replicate 3 (Responded Samples.server_error)))
       None "model" "https://huggingface.co/bert").1 in
  reports_failure effects
  ∧ ∀ e', ConsoleError e' ∈ effects →
          e' = mkError Error "HTTP Error: 500 Internal Server Error".
Proof.
  cbv zeta.
  destruct (submit_shows_last_error
              (Samples.script (replicate 3 (Responded Samples.server_error)))
              None "model" "https://huggingface.co/bert"
              (mkError Error "HTTP Error: 500 Internal Server Error"))
    as (_ & _ & Honly & _ & Hfailure & _).
  - intros k r Hk Hnet.
    destruct k as [| [| [| k]]]; [| | | lia];
      injection Hnet as <-; reflexivity.
  - reflexivity.
  - split; [exact Hfailure | exact Honly].
Defined.

End ContributeMore.

(** * More properties of app.js *)
Module AppMore.
Import App AppAux AppSpec.

Section Escape.

Lemma append_assoc (a b c : string) : (a +:+ b) +:+ c = a +:+ b +:+ c.
Proof.
  induction a as [| x a IH]; [reflexivity |].
  change (String x a +:+ b) with (String x (a +:+ b)).
  change (String x (a +:+ b) +:+ c) with (String x ((a +:+ b) +:+ c)).
  by rewrite IH.
Qed.

Lemma length_append (a b : string) :
  String.length (a +:+ b) = (String.length a + String.length b)%nat.
Proof.
  induction a as [| x a IH]; [reflexivity |].
  change (String x a +:+ b) with (String x (a +:+ b)).
  cbn [String.length]. by rewrite IH.
Qed.

Lemma replace_all_app (c : ascii) (by_ a b : string) :
  replace_all c by_ (a +:+ b) = replace_all c by_ a +:+ replace_all c by_ b.
Proof.
  induction a as [| c' a IH]; [reflexivity |].
  change (String c' a +:+ b) with (String c' (a +:+ b)).
  cbn [replace_all]. rewrite IH.
  destruct (Ascii.eqb c c').
  - symmetry. apply append_assoc.
  - reflexivity.
Qed.

(** X9: [escapeHtml] works character by character: the escape of a
    concatenation is the concatenation of the escapes. *)
Theorem escapeHtml_app (a b : string) :
  escapeHtml (a +:+ b) = escapeHtml a +:+ escapeHtml b.
Proof. unfold escapeHtml. by rewrite !replace_all_app. Qed.

Lemma escapeHtml_char (c : ascii) :
  escapeHtml (String c EmptyString) = escape_char c.
Proof.
  unfold escapeHtml, escape_char.
  destruct (Ascii.eqb_spec c "&") as [-> | Hamp]; [reflexivity |].
  destruct (Ascii.eqb_spec c "<") as [-> | Hlt]; [reflexivity |].
  destruct (Ascii.eqb_spec c ">") as [-> | Hgt]; [reflexivity |].
  destruct (Ascii.eqb_spec c (ascii_of_nat 34)) as [-> | Hdq]; [reflexivity |].
  destruct (Ascii.eqb_spec c "'") as [-> | Hap]; [reflexivity |].
  cbn [replace_all].
  repeat match goal with
  | |- context [Ascii.eqb ?x c] =>
      destruct (Ascii.eqb_spec x c) as [Heq | _];
      [symmetry in Heq; contradiction | cbn [replace_all]]
  end.
  reflexivity.
Qed.

Lemma escapeHtml_cons (c : ascii) (s : string) :
  escapeHtml (String c s) = escape_char c +:+ escapeHtml s.
Proof.
  change (String c s) with (String c EmptyString +:+ s).
  by rewrite escapeHtml_app, escapeHtml_char.
Qed.

Lemma occurs_app (c : ascii) (a b : string) :
  occurs c (a +:+ b) = occurs c a || occurs c b.
Proof.
  induction a as [| c' a IH]; [reflexivity |].
  change (String c' a +:+ b) with (String c' (a +:+ b)).
  cbn [occurs]. rewrite IH. apply orb_assoc.
Qed.

Lemma occurs_escape_char (x c : ascii) :
  x ≠ "&"%char → special x = true → occurs x (escape_char c) = false.
Proof.
  intros Hx Hsp. unfold escape_char.
  repeat match goal with
  | |- context [if Ascii.eqb c ?y then _ else _] =>
      destruct (Ascii.eqb_spec c y) as [-> | ?]
  end;
    unfold special in Hsp;
    repeat (apply orb_true_iff in Hsp as [Hsp | Hsp]);
    apply Ascii.eqb_eq in Hsp; subst x; try contradiction;
    cbn [occurs]; try reflexivity;
    rewrite orb_false_r; apply Ascii.eqb_neq; congruence.
Qed.

(** X10: the result of [escapeHtml] contains none of the characters
    [<], [>], double quote and apostrophe, whatever the input. *)
Theorem escapeHtml_safe (s : string) :
  occurs "<" (escapeHtml s) = false
  ∧ occurs ">" (escapeHtml s) = false
  ∧ occurs (ascii_of_nat 34) (escapeHtml s) = false
  ∧ occurs "'" (escapeHtml s) = false.
Proof.
  assert (Hall : ∀ x, x ≠ "&"%char → special x = true →
                      occurs x (escapeHtml s) = false).
  { intros x Hx Hsp. induction s as [| c s IH]; [reflexivity |].
    by rewrite escapeHtml_cons, occurs_app, IH, occurs_escape_char. }
  repeat split; apply Hall; (discriminate || reflexivity).
Qed.

Lemma escape_char_inj (c1 c2 : ascii) (r1 r2 : string) :
  escape_char c1 +:+ r1 = escape_char c2 +:+ r2 → c1 = c2 ∧ r1 = r2.
Proof.
  unfold escape_char.
  repeat match goal with
  | |- context [if Ascii.eqb c1 ?y then _ else _] =>
      destruct (Ascii.eqb_spec c1 y) as [-> | ?]
  end;
  repeat match goal with
  | |- context [if Ascii.eqb c2 ?y then _ else _] =>
      destruct (Ascii.eqb_spec c2 y) as [-> | ?]
  end;
  intros Heq; cbv [String.append] in Heq; split; congruence.
Qed.

(** X11: [escapeHtml] loses nothing: two different strings never have the
    same escape. *)
Theorem escapeHtml_inj (s1 s2 : string) :
  escapeHtml s1 = escapeHtml s2 → s1 = s2.
Proof.
  assert (Hne : ∀ c s, escapeHtml (String c s) ≠ "").
  { intros c s. rewrite escapeHtml_cons. unfold escape_char.
    repeat match goal with
    | |- context [if Ascii.eqb c ?y then _ else _] => destruct (Ascii.eqb c y)
    end; discriminate. }
  revert s2. induction s1 as [| c1 s1 IH]; intros [| c2 s2] Heq.
  - reflexivity.
  - symmetry in Heq. by apply Hne in Heq.
  - by apply Hne in Heq.
  - rewrite !escapeHtml_cons in Heq.
    apply escape_char_inj in Heq as [-> Heq]. by rewrite (IH s2 Heq).
Qed.

Lemma escapeHtml_inj_witness : "a<b" = "a<b".
Proof. apply (escapeHtml_inj "a<b" "a<b"). reflexivity. Defined.

(** X12: a string is left unchanged by [escapeHtml] exactly when it
    contains none of the five characters [&], [<], [>], double quote and
    apostrophe; any of them makes the result longer. *)
Theorem escapeHtml_id_iff (s : string) :
  (escapeHtml s = s ↔ has_special s = false)
  ∧ (String.length s ≤ String.length (escapeHtml s))%nat.
Proof.
  assert (Hchar : ∀ c,
    (special c = false ∧ escape_char c = String c EmptyString)
    ∨ (special c = true ∧ (2 ≤ String.length (escape_char c))%nat)).
  { intros c. unfold escape_char, special.
    repeat match goal with
    | |- context [if Ascii.eqb c ?y then _ else _] =>
        destruct (Ascii.eqb c y)
    end; cbn; (left; split; reflexivity) || (right; split; [reflexivity | lia]). }
  assert (Hlen : ∀ t, (String.length t ≤ String.length (escapeHtml t))%nat).
  { induction t as [| c t IH]; [reflexivity |].
    rewrite escapeHtml_cons, length_append. cbn [String.length].
    destruct (Hchar c) as [[_ ->] | [_ Hc]]; cbn [String.length]; lia. }
  split; [| apply Hlen].
  induction s as [| c s [IH1 IH2]]; [done |].
  rewrite escapeHtml_cons. cbn [has_special].
  destruct (Hchar c) as [[-> ->] | [-> Hc]]; cbn [orb].
  - change (String c "" +:+ escapeHtml s) with (String c (escapeHtml s)).
    split.
    + intros [= Heq]. by apply IH1.
    + intros Hs. by rewrite (IH2 Hs).
  - split; [| discriminate].
    intros Heq. apply (f_equal String.length) in Heq.
    rewrite length_append in Heq. cbn [String.length] in Heq.
    pose proof (Hlen s). lia.
Qed.
End Escape.

Section Flows.
Context {number : Type} `{JSNumber number} {engine : Engine}.
Implicit Types (list_o search_o : FetchOutcome number) (query : string).
Implicit Types (view : string * list (JSValue number)).

Lemma grid_app view (l1 l2 : list (Effect number)) :
  grid view (l1 ++ l2) = grid (grid view l1) l2.
Proof.
  revert view. induction l1 as [| ev l1 IH]; intros view; [reflexivity |].
  destruct ev; cbn [app grid]; apply IH.
Qed.

Lemma grid_cards view (models : list (JSValue number)) :
  grid view (map AppendCard models) = (view.1, view.2 ++ models).
Proof.
  revert view. induction models as [| m models IH]; intros [html cards].
  - cbn. by rewrite app_nil_r.
  - cbn [map grid]. rewrite IH. cbn [fst snd]. by rewrite <- app_assoc.
Qed.

(** The artifacts [createModelCard] builds a card for: not [null] nor
    [undefined], with an [id] and a [name] that have a string form (or are
    falsy) and a [type] that is a string (or is falsy). *)
Lemma renderable_iff (model : JSValue number) :
  renderable model ↔
    nullish model = false
    ∧ ¬ rejects (ToString (js_or (Get model "id") (JString "")))
    ∧ (truthy (Get model "type") = true → ∃ s, Get model "type" = JString s)
    ∧ ¬ rejects (ToString (js_or (Get model "name") (JString ""))).
Proof.
  unfold renderable, createModelCard.
  destruct (nullish model); [split; [discriminate | intros [[=] _]] |].
  destruct (ToString (js_or (Get model "id") (JString ""))) as [s1 | e1];
    [| split; [discriminate | intros (_ & Hid & _); destruct Hid; exact I]].
  destruct (truthy (Get model "type")).
  - destruct (Get model "type") as [| | b | n | s | elems | props];
      try (split; [discriminate
                  | intros (_ & _ & Htype & _);
                    destruct (Htype eq_refl) as [s' Hs']; discriminate Hs']).
    destruct (ToString (js_or (Get model "name") (JString ""))) as [s2 | e2].
    + split; [| reflexivity]. intros _.
      split; [reflexivity |]. split; [intros [] |].
      split; [intros _; by exists s | intros []].
    + split; [discriminate |]. intros (_ & _ & _ & Hname).
      destruct Hname. exact I.
  - destruct (ToString (js_or (Get model "name") (JString ""))) as [s2 | e2].
    + split; [| reflexivity]. intros _.
      split; [reflexivity |]. split; [intros [] |].
      split; [discriminate | intros []].
    + split; [discriminate |]. intros (_ & _ & _ & Hname).
      destruct Hname. exact I.
Qed.

(** The loop appends the cards of the artifacts up to the first one for
    which [createModelCard] throws. *)
Lemma render_cards_ok (models : list (JSValue number)) :
  Forall renderable models →
  render_cards models = (map AppendCard models, Fulfilled tt).
Proof.
  induction 1 as [| m models Hm _ IH]; [reflexivity |].
  cbn [render_cards]. unfold renderable in Hm. rewrite Hm, IH. reflexivity.
Qed.

Lemma render_cards_bad (good rest : list (JSValue number))
    (bad : JSValue number) (e : JSError) :
  Forall renderable good →
  createModelCard bad = Rejected e →
  render_cards (good ++ bad :: rest) = (map AppendCard good, Rejected e).
Proof.
  intros Hgood Hbad. induction Hgood as [| m good Hm _ IH].
  - cbn [app render_cards]. rewrite Hbad. reflexivity.
  - cbn [app render_cards]. unfold renderable in Hm. rewrite Hm, IH.
    reflexivity.
Qed.

Lemma render_cards_grid_only (models : list (JSValue number)) :
  Forall grid_only (render_cards models).1.
Proof.
  induction models as [| m models IH]; [constructor |].
  cbn [render_cards]. unfold lift, bind, emit.
  destruct (createModelCard m); [| constructor].
  destruct (render_cards models) as [effects result].
  constructor; [exact I | exact IH].
Qed.

Lemma forEach_card_grid_only (artifacts : JSValue number) :
  Forall grid_only (forEach_card artifacts).1.
Proof.
  destruct artifacts; try constructor. apply render_cards_grid_only.
Qed.

(** X13: a search with a query that is not blank never rejects.  Whatever
    the network answers and whatever the body holds, it disables the button
    and the input, sends one request, the POST of [{regex: query}] with the
    query as typed (not trimmed), then only changes the grid or logs, and
    at the end re-enables both controls and restores the markup the button
    had. *)
Theorem searchArtifacts_restores list_o search_o (buttonHTML query : string) :
  whitespace_only query = false →
  ∃ middle,
    searchArtifacts list_o search_o buttonHTML query =
      ([SetDisabled searchButton true; SetDisabled searchInput true;
        GridHTML searching_html; ButtonHTML searching_button_html;
        Fetch (mkRequest "POST" (API_BASE_URL +:+ "/artifact/byRegEx")
                 [("Content-Type", "application/json")]
                 (Some (JObject [("regex", JString query)])))]
         ++ middle
         ++ [SetDisabled searchButton false; SetDisabled searchInput false;
             ButtonHTML buttonHTML],
       Fulfilled tt)
    ∧ Forall grid_only middle.
Proof.
  intros Hws. unfold searchArtifacts. rewrite blank_whitespace_only, Hws.
  unfold fetch, try_finally, try_catch, bind, emit, lift.
  destruct search_o as [response | e];
    [| eexists; split; [reflexivity | repeat constructor]].
  destruct (ok response); cbn [negb].
  - unfold Response_json. destruct (json response) as [artifacts |];
      [| eexists; split; [reflexivity | repeat constructor]].
    destruct (length_is_zero artifacts) as [[] | e];
      try (eexists; split; [reflexivity | repeat constructor]).
    pose proof (forEach_card_grid_only artifacts) as Hcards.
    destruct (forEach_card artifacts) as [effects [[] | e]]; cbn [fst] in Hcards.
    + exists (GridHTML "" :: effects). split.
      * cbn. by rewrite <- ?app_assoc, ?app_nil_r.
      * constructor; [exact I | exact Hcards].
    + exists (GridHTML "" :: effects
                ++ [GridHTML search_error_html; ConsoleError "Search failed:"]).
      split.
      * cbn. by rewrite <- ?app_assoc, ?app_nil_r.
      * constructor; [exact I |]. apply Forall_app. split; [exact Hcards |].
        repeat constructor.
  - destruct (status response =? 404);
      eexists; (split; [reflexivity | repeat constructor]).
Qed.

(** X14: when the listing is answered 2xx with a JSON array of artifacts for
    which [createModelCard] does not throw, the list flow ends showing one
    card per artifact, in the order of the array, and the empty-registry
    placeholder when the array is empty. *)
Theorem init_renders list_o (r : Response number)
    (artifacts : list (JSValue number)) view :
  list_o = Responded r → ok r = true → json r = Some (JArray artifacts) →
  Forall renderable artifacts →
  (init list_o).2 = Fulfilled tt
  ∧ grid view (init list_o).1 =
      match artifacts with
      | [] => (empty_registry_html, [])
      | _ => ("", artifacts)
      end.
Proof.
  intros -> Hok Hjson Hall. unfold init, fetch, Response_json.
  unfold try_catch, bind, emit, lift. rewrite Hok, Hjson. cbn [negb].
  destruct artifacts as [| m models]; [split; reflexivity |].
  cbn [length_is_zero forEach_card]. rewrite (render_cards_ok _ Hall).
  split; [reflexivity |].
  cbn [fst app grid]. by rewrite grid_cards.
Qed.

(** X15: the same for a search with a query that is not blank: one card per
    artifact of the answer, in order, and the no-match placeholder, the one
    of a 404, when the array is empty. *)
Theorem searchArtifacts_renders list_o search_o (buttonHTML query : string)
    (r : Response number) (artifacts : list (JSValue number)) view :
  whitespace_only query = false →
  search_o = Responded r → ok r = true → json r = Some (JArray artifacts) →
  Forall renderable artifacts →
  grid view (searchArtifacts list_o search_o buttonHTML query).1 =
    match artifacts with
    | [] => (no_match_html query, [])
    | _ => ("", artifacts)
    end.
Proof.
  intros Hws -> Hok Hjson Hall.
  unfold searchArtifacts. rewrite blank_whitespace_only, Hws.
  unfold fetch, Response_json, try_finally, try_catch, bind, emit, lift.
  rewrite Hok, Hjson. cbn [negb].
  destruct artifacts as [| m models]; [reflexivity |].
  cbn [length_is_zero forEach_card]. rewrite (render_cards_ok _ Hall).
  cbn [fst app grid]. rewrite grid_app, grid_cards. reflexivity.
Qed.

(** X16: one artifact for which [createModelCard] throws (a [null] entry, a
    [type] that is not a string, a [name] or an [id] that has no string
    form) hides the whole answer: the cards already appended are replaced
    by the error placeholder, in the list flow the one of a failed
    initialisation and in the search flow the one with the fixed search
    error text, and no card is left. *)
Theorem one_bad_artifact_hides_all list_o search_o (buttonHTML query : string)
    (r : Response number) (good rest : list (JSValue number))
    (bad : JSValue number) view :
  ok r = true → json r = Some (JArray (good ++ bad :: rest)) →
  Forall renderable good → rejects (createModelCard bad) →
  (list_o = Responded r →
     ∃ msg, grid view (init list_o).1 = (init_error_html msg, []))
  ∧ (whitespace_only query = false → search_o = Responded r →
     grid view (searchArtifacts list_o search_o buttonHTML query).1 =
       (search_error_html, [])).
Proof.
  intros Hok Hjson Hgood Hbad.
  destruct (createModelCard bad) as [[] | e] eqn:He; [destruct Hbad |].
  assert (Hnot_empty : length_is_zero (JArray (good ++ bad :: rest))
                       = Fulfilled false)
    by (destruct good; reflexivity).
  split.
  - intros ->. exists (message e). unfold init, fetch, Response_json.
    unfold try_catch, bind, emit, lift. rewrite Hok, Hjson. cbn [negb].
    rewrite Hnot_empty. cbn [forEach_card].
    rewrite (render_cards_bad good rest bad e Hgood He).
    cbn [fst app grid]. rewrite !grid_app. reflexivity.
  - intros Hws ->.
    unfold searchArtifacts. rewrite blank_whitespace_only, Hws.
    unfold fetch, Response_json, try_finally, try_catch, bind, emit, lift.
    rewrite Hok, Hjson. cbn [negb]. rewrite Hnot_empty. cbn [forEach_card].
    rewrite (render_cards_bad good rest bad e Hgood He).
    cbn [fst app grid]. rewrite !grid_app. reflexivity.
Qed.

(** X17: the list flow never rejects and sends exactly one request, the
    POST of the wildcard query to [/artifacts]; when the answer is not 2xx
    the grid shows the error placeholder with the status and the status
    text, and when there is no answer it shows the message of the network
    error. *)
Theorem init_errors list_o view :
  (init list_o).2 = Fulfilled tt
  ∧ requests (init list_o).1 =
      [mkRequest "POST" (API_BASE_URL +:+ "/artifacts") []
         (Some (JArray [JObject [("name", JString "*");
                                 ("types", JArray [])]]))]
  ∧ (∀ r, list_o = Responded r → ok r = false →
       grid view (init list_o).1 =
         (init_error_html ("API Request Failed: " +:+ Z_toString (status r)
                             +:+ " " +:+ statusText r), []))
  ∧ (∀ e, list_o = Failed e →
       grid view (init list_o).1 = (init_error_html (message e), [])).
Proof.
  split; [| split; [apply init_requests | split]].
  - unfold init, fetch, try_catch, bind, emit, lift.
    destruct list_o as [response | e]; [| reflexivity].
    destruct (ok response); cbn [negb]; [| reflexivity].
    unfold Response_json. destruct (json response) as [artifacts |];
      [| reflexivity].
    destruct (length_is_zero artifacts) as [[] | e]; try reflexivity.
    by destruct (forEach_card artifacts) as [effects [[] | e]].
  - intros r -> Hok. unfold init, fetch, try_catch, bind, emit, lift.
    rewrite Hok. reflexivity.
  - intros e ->. reflexivity.
Qed.
End Flows.

Lemma searchArtifacts_restores_witness :
  ∃ middle,
    (searchArtifacts Samples.unreachable Samples.unreachable
       search_button_html " bert").1 =
      [SetDisabled searchButton true; SetDisabled searchInput true;
       GridHTML searching_html; ButtonHTML searching_button_html;
       Fetch (search_request " bert")]
        ++ middle
        ++ [SetDisabled searchButton false; SetDisabled searchInput false;
            ButtonHTML search_button_html].
Proof.
  destruct (searchArtifacts_restores Samples.unreachable Samples.unreachable
              search_button_html " bert" eq_refl) as (middle & Hrun & _).
  exists middle. rewrite Hrun. reflexivity.
Defined.

Lemma init_renders_witness :
  grid ("", [])
    (init (Responded (MoreSamples.listing
                        [MoreSamples.bert_json; MoreSamples.squad_json]))).1
  = ("", [MoreSamples.bert_json; MoreSamples.squad_json]).
Proof.
  apply (init_renders _
           (MoreSamples.listing [MoreSamples.bert_json; MoreSamples.squad_json])
           [MoreSamples.bert_json; MoreSamples.squad_json] ("", []));
    try reflexivity.
  repeat constructor.
Defined.

Lemma searchArtifacts_renders_witness :
  grid ("", [])
    (searchArtifacts Samples.unreachable
       (Responded (MoreSamples.listing [MoreSamples.bert_json]))
       search_button_html "bert").1
  = ("", [MoreSamples.bert_json]).
Proof.
  apply (searchArtifacts_renders Samples.unreachable _ search_button_html
           "bert" (MoreSamples.listing [MoreSamples.bert_json])
           [MoreSamples.bert_json] ("", []));
    try reflexivity.
  repeat constructor.
Defined.

(** An entry whose [name] has no string form after a good one: the search
    flow shows the search error placeholder and no card. *)
Lemma one_bad_artifact_hides_all_witness :
  grid ("", [])
    (searchArtifacts Samples.unreachable
       (Responded (MoreSamples.listing
                     [MoreSamples.bert_json; MoreSamples.unnamed_json;
                      MoreSamples.squad_json]))
       search_button_html "bert").1
  = (search_error_html, []).
Proof.
  destruct (one_bad_artifact_hides_all
              Samples.unreachable
              (Responded (MoreSamples.listing
                            [MoreSamples.bert_json; MoreSamples.unnamed_json;
                             MoreSamples.squad_json]))
              search_button_html "bert"
              (MoreSamples.listing
                 [MoreSamples.bert_json; MoreSamples.unnamed_json;
                  MoreSamples.squad_json])
              [MoreSamples.bert_json] [MoreSamples.squad_json]
              MoreSamples.unnamed_json ("", [])
              eq_refl eq_refl ltac:(repeat constructor) I)
    as [_ Hsearch].
  exact (Hsearch eq_refl eq_refl).
Defined.

Section CacheMore.
Context {number : Type} `{JSNumber number} {engine : Engine}.
Implicit Types (p : Page number) (model : Artifact).
Implicit Types (rate_o cost_o : FetchOutcome number).

Lemma step_keeps_entries p (ev : Event number) (i : string) :
  is_Some (modelDetailsCache p !! i) →
  is_Some (modelDetailsCache (step p ev) !! i).
Proof.
  intros Hi. destruct ev as [model | model | k rate_o cost_o]; cbn [step].
  - change (click model p) with (step p (Click model)).
    by rewrite (ask_cache p model (Click model)) by (by left).
  - change (click_details model p) with (step p (ClickDetails model)).
    by rewrite (ask_cache p model (ClickDetails model)) by (by right).
  - destruct (awaiting p !! k) as [[listener model] |] eqn:Hk.
    + destruct (resume_stores p k listener model rate_o cost_o Hk)
        as (details & _ & -> & _).
      destruct (decide (id model = i)) as [<- | Hne].
      * rewrite lookup_insert_eq. eauto.
      * by rewrite lookup_insert_ne.
    + unfold resume. by rewrite Hk.
Qed.

(** X18: the detail cache never loses an entry: through any sequence of
    clicks and resumed listeners, an id that has a record keeps having
    one. *)
Theorem cache_never_evicts (events : list (Event number)) p (i : string) :
  is_Some (modelDetailsCache p !! i) →
  is_Some (modelDetailsCache (run events p) !! i).
Proof.
  revert p. induction events as [| ev events IH]; intros p Hi; [exact Hi |].
  cbn [run foldl]. apply IH, step_keeps_entries, Hi.
Qed.

(** X19: a resumed listener writes the record of its own fetch over
    whatever the cache held for the id, and leaves the records of the other
    ids alone; so when two fetches for one id are in flight, the record of
    the one that settles last stays, even if it is the sentinel of a failed
    fetch replacing a real record. *)
Theorem resume_overwrites p (k : nat) (listener : Listener) model
    rate_o cost_o :
  awaiting p !! k = Some (listener, model) →
  ∃ details,
    (fetchModelDetails rate_o cost_o (id model) (type model)).2
      = Fulfilled details
    ∧ modelDetailsCache (resume k rate_o cost_o p) !! id model = Some details
    ∧ (rejects (sub_request rate_o) ∨ rejects (sub_request cost_o) →
       modelDetailsCache (resume k rate_o cost_o p) !! id model
         = Some sentinel)
    ∧ ∀ j, j ≠ id model →
        modelDetailsCache (resume k rate_o cost_o p) !! j
          = modelDetailsCache p !! j.
Proof.
  intros Hk.
  destruct (resume_stores p k listener model rate_o cost_o Hk)
    as (details & Hd & Hcache & _).
  exists details. rewrite fetchModelDetails_unfold, Hcache. cbn [snd].
  split; [exact Hd |]. split; [apply lookup_insert_eq |]. split.
  - intros Hrej.
    rewrite (fetchModelDetails_settle_rejected _ _ (id model) Hrej) in Hd.
    injection Hd as <-. apply lookup_insert_eq.
  - intros j Hj. by rewrite lookup_insert_ne.
Qed.

Lemma loading_changes_app (on : bool) (l1 l2 : list (Effect number)) :
  loading_changes on (l1 ++ l2) =
    (loading_changes on l1 + loading_changes on l2)%nat.
Proof.
  induction l1 as [| ev l1 IH]; [reflexivity |].
  destruct ev; cbn [app loading_changes]; rewrite IH; lia.
Qed.

Lemma settle_no_loading (on : bool) rate_o cost_o (i : string) :
  loading_changes on (fetchModelDetails_settle rate_o cost_o i).1 = 0%nat.
Proof.
  by destruct (fetchModelDetails_settle_effects rate_o cost_o i) as [-> | ->].
Qed.

Lemma openModelModal_no_loading (on : bool) model (details : Details number) :
  loading_changes on (openModelModal model details).1 = 0%nat.
Proof. by destruct (openModelModal_effects model details) as [-> | ->]. Qed.

(** What a resumed listener does with its record, modal or [catch] clause,
    leaves the mark alone; its [finally] removes it. *)
Lemma on_details_no_loading (on : bool) (listener : Listener) model
    (details : Details number) :
  loading_changes on
    (try_catch (on_details listener model details)
       (λ err, (on_failure listener model err, Fulfilled tt))).1 = 0%nat.
Proof.
  pose proof (openModelModal_no_loading on model details) as Hopen.
  destruct listener; unfold on_details, try_catch, bind, emit;
    destruct (openModelModal model details) as [t [[] | e]];
    cbn [fst] in Hopen; cbn [fst snd app loading_changes];
    rewrite ?loading_changes_app, ?Hopen; reflexivity.
Qed.

(** The class is added once per listener still waiting or already
    resumed. *)
Lemma step_loading p (ev : Event number) :
  loading_changes true (log p) =
    (loading_changes false (log p) + length (awaiting p))%nat →
  loading_changes true (log (step p ev)) =
    (loading_changes false (log (step p ev)) + length (awaiting (step p ev)))%nat.
Proof.
  intros Hinv. destruct ev as [model | model | k rate_o cost_o]; cbn [step].
  - unfold click. destruct (String.eqb (id model) "");
      [| destruct (modelDetailsCache p !! id model)];
      cbn [log awaiting];
      rewrite ?length_app, !loading_changes_app,
        ?openModelModal_no_loading;
      cbn; lia.
  - unfold click_details. destruct (modelDetailsCache p !! id model);
      cbn [log awaiting];
      rewrite ?length_app, !loading_changes_app,
        ?openModelModal_no_loading;
      cbn; lia.
  - unfold resume.
    destruct (awaiting p !! k) as [[listener model] |] eqn:Hk; [| exact Hinv].
    pose proof (lookup_lt_Some _ _ _ Hk) as Hlt.
    pose proof (settle_no_loading true rate_o cost_o (id model)) as Hon.
    pose proof (settle_no_loading false rate_o cost_o (id model)) as Hoff.
    destruct (fetchModelDetails_settle rate_o cost_o (id model))
      as [effects [details | err]];
      cbn [fst log awaiting] in *;
      rewrite !loading_changes_app, Hon, Hoff, ?on_details_no_loading,
        length_delete by eauto;
      destruct listener; cbn; lia.
Qed.

(** X20: at every moment the number of times a card was marked [loading]
    is the number of times a card was unmarked plus the number of listeners
    still waiting for their fetch: every listener that resumes removes its
    mark, on success and on failure alike, and every mark stands for one
    pair of requests. *)
Theorem loading_marks_balanced (events : list (Event number)) :
  let p := run events initial in
  loading_changes true (log p) =
    (loading_changes false (log p) + length (awaiting p))%nat
  ∧ length (requests (log p)) = (2 * loading_changes true (log p))%nat.
Proof.
  cbv zeta.
  assert (Hgen : ∀ p,
    (loading_changes true (log p) =
       (loading_changes false (log p) + length (awaiting p))%nat
     ∧ length (requests (log p)) = (2 * loading_changes true (log p))%nat) →
    loading_changes true (log (run events p)) =
      (loading_changes false (log (run events p))
         + length (awaiting (run events p)))%nat
    ∧ length (requests (log (run events p))) =
        (2 * loading_changes true (log (run events p)))%nat).
  { induction events as [| ev events IH]; intros p Hinv; [exact Hinv |].
    cbn [run foldl]. apply IH. destruct Hinv as [Hbal Hreq].
    split; [by apply step_loading |].
    destruct ev as [model | model | k rate_o cost_o]; cbn [step].
    - unfold click. destruct (String.eqb (id model) "");
        [| destruct (modelDetailsCache p !! id model) as [details |]];
        cbn [log];
        try pose proof (openModelModal_requests model details) as Hopen;
        unfold requests in *;
        rewrite !omap_app, !length_app, !loading_changes_app,
          ?openModelModal_no_loading, ?Hopen;
        cbn; lia.
    - unfold click_details.
      destruct (modelDetailsCache p !! id model) as [details |];
        cbn [log];
        try pose proof (openModelModal_requests model details) as Hopen;
        unfold requests in *;
        rewrite !omap_app, !length_app, !loading_changes_app,
          ?openModelModal_no_loading, ?Hopen;
        cbn; lia.
    - destruct (awaiting p !! k) as [[listener model] |] eqn:Hk.
      + destruct (resume_stores p k listener model rate_o cost_o Hk)
          as (details & Hd & _ & _ & ->).
        pose proof (settle_no_loading true rate_o cost_o (id model)) as Hon.
        unfold resume. rewrite Hk.
        destruct (fetchModelDetails_settle rate_o cost_o (id model))
          as [effects result].
        cbn [fst snd] in Hd, Hon. subst result. cbn [log].
        rewrite !loading_changes_app, Hon, on_details_no_loading.
        cbn; lia.
      + unfold resume. by rewrite Hk. }
  apply Hgen. split; reflexivity.
Qed.
End CacheMore.

(** Two clicks in flight; the first fetch succeeds, the second gets no
    answer and settles last: the cache ends with the sentinel record. *)
Lemma resume_overwrites_witness :
  modelDetailsCache
    (run [Click Samples.bert; Click Samples.bert;
          Settle 0 (Samples.json_ok MoreSamples.rating_json)
                   (Samples.json_ok MoreSamples.cost_json);
          Settle 0 Samples.unreachable Samples.unreachable]
       (initial (number := Z))) !! "a1"
  = Some sentinel.
Proof.
  unfold run. cbn [foldl step].
  destruct (resume_overwrites
              (resume 0 (Samples.json_ok MoreSamples.rating_json)
                        (Samples.json_ok MoreSamples.cost_json)
                 (click Samples.bert (click Samples.bert initial)))
              0 CardListener Samples.bert
              Samples.unreachable Samples.unreachable eq_refl)
    as (details & _ & _ & Hfailed & _).
  apply Hfailed. left. exact I.
Defined.

Lemma cache_never_evicts_witness :
  is_Some
    (modelDetailsCache
       (run [Click Samples.bert; ClickDetails Samples.bert]
          (resume 0 (Samples.json_ok MoreSamples.rating_json)
                    (Samples.json_ok MoreSamples.cost_json)
             (click Samples.bert (initial (number := Z))))) !! "a1").
Proof.
  apply cache_never_evicts.
  destruct (resume_stores (click Samples.bert (initial (number := Z)))
              0 CardListener Samples.bert
              (Samples.json_ok MoreSamples.rating_json)
              (Samples.json_ok MoreSamples.cost_json) eq_refl)
    as (details & _ & Hcache & _).
  rewrite Hcache. change (id Samples.bert) with "a1".
  rewrite lookup_insert_eq. eauto.
Defined.

End AppMore.

(** * Properties of artifact.js *)
Module ArtifactMore.
Import ArtifactPage.

Lemma endsWith_spec (s suffix : string) :
  endsWith s suffix = true ↔ ∃ p, s = p +:+ suffix.
Proof.
  split.
  - induction s as [| c s IH]; cbn [endsWith]; rewrite orb_true_iff.
    + intros [Heq | Hf]; [| discriminate Hf].
      apply String.eqb_eq in Heq as <-. by exists "".
    + intros [Heq | Hrest].
      * apply String.eqb_eq in Heq as <-. by exists "".
      * destruct (IH Hrest) as [p ->]. by exists (String c p).
  - intros [p ->]. induction p as [| c p IH].
    + change ("" +:+ suffix) with suffix.
      destruct suffix; cbn [endsWith]; [reflexivity |].
      by rewrite String.eqb_refl.
    + change (String c p +:+ suffix) with (String c (p +:+ suffix)).
      cbn [endsWith]. rewrite IH. apply orb_true_r.
Qed.

Section Page.
Context {number : Type} `{JSNumber number} {engine : Engine}.
Variable toFixed3 : number → string.
Implicit Types (meta_o rating_o readme_o : FetchOutcome number).
Implicit Types (artifactType artifactId : option string).

Lemma loadReadme_shape readme_o (repoUrl : JSValue number) :
  loadReadme readme_o repoUrl =
    if truthy repoUrl then
      match ToString repoUrl with
      | Fulfilled url =>
          ([Fetch (mkRequest "GET" (url +:+ "/raw/main/README.md") [] None);
            SetText "readmeContent"
              (match readme_o with
               | Responded res => text res
               | Failed _ => "No README available."
               end)],
           Fulfilled tt)
      | Rejected e => ([], Rejected e)
      end
    else ([SetText "readmeContent" "No README available."], Fulfilled tt).
Proof.
  unfold loadReadme. destruct (truthy repoUrl); [| reflexivity].
  cbn [negb]. unfold bind, lift.
  destruct (ToString repoUrl) as [url | e]; [| reflexivity].
  destruct readme_o; reflexivity.
Qed.

(** X21: what [loadReadme] does.  Without a repository URL (a falsy
    [repoUrl]) it sends no request and writes [No README available.].  With
    a URL that has a string form it never rejects, requests
    [{repoUrl}/raw/main/README.md] and writes the README box exactly once:
    the body of the answer whatever its status, or [No README available.]
    when there is no answer.  The template literal that builds the address
    stands before the [try], so the call rejects, with no request and
    nothing written, exactly when [repoUrl] is truthy and has no string
    form. *)
Theorem loadReadme_outcomes readme_o (repoUrl : JSValue number) :
  let run := loadReadme readme_o repoUrl in
  (truthy repoUrl = false →
     run = ([SetText "readmeContent" "No README available."], Fulfilled tt))
  ∧ (∀ url, truthy repoUrl = true → ToString repoUrl = Fulfilled url →
       run.2 = Fulfilled tt
       ∧ requests run.1 =
           [mkRequest "GET" (url +:+ "/raw/main/README.md") [] None]
       ∧ ∃ s, texts "readmeContent" run.1 = [s]
              ∧ (∀ res, readme_o = Responded res → s = text res)
              ∧ (∀ e, readme_o = Failed e → s = "No README available."))
  ∧ (rejects run.2 ↔ truthy repoUrl = true ∧ rejects (ToString repoUrl))
  ∧ (rejects run.2 → run.1 = []).
Proof.
  cbv zeta. rewrite loadReadme_shape.
  destruct (truthy repoUrl);
    [destruct (ToString repoUrl) as [url | e] |]; cbn [fst snd rejects].
  - split; [discriminate |]. split; [| split; [| intros []]].
    + intros url' _ [= <-]. split; [reflexivity |]. split; [reflexivity |].
      destruct readme_o as [res | e'].
      * exists (text res). split; [reflexivity |].
        split; [by intros ? [= <-] | discriminate].
      * exists "No README available.". split; [reflexivity |].
        split; [discriminate | reflexivity].
    + split; [intros [] | intros [_ []]].
  - split; [discriminate |]. split; [| split; [| reflexivity]].
    + intros url _ Hurl. discriminate Hurl.
    + split; [intros _; split; [reflexivity | exact I] | intros _; exact I].
  - split; [reflexivity |]. split; [| split; [| intros []]].
    + intros url Hurl. discriminate Hurl.
    + split; [intros [] | intros [Ht _]; discriminate Ht].
Qed.

(** X22: the delete listener sends its DELETE request only after the user
    confirmed; it goes back to the home page exactly when the answer has
    status 200, so that every other answer, a 204 or a 202 included, is
    reported as [Delete failed.]; and when the request gets no answer the
    listener rejects without telling the user anything. *)
Theorem deleteArtifact_outcomes (confirmed : bool)
    (delete_o : FetchOutcome number) artifactType artifactId :
  let run := deleteArtifact confirmed delete_o artifactType artifactId in
  requests run.1 =
    (if confirmed
     then [mkRequest "DELETE"
             (API_BASE_URL +:+ "/artifacts/" +:+ param_text artifactType
                +:+ "/" +:+ param_text artifactId) [] None]
     else [])
  ∧ (Navigate "/home.html" ∈ run.1
     ↔ confirmed = true ∧ ∃ r, delete_o = Responded r ∧ status r = 200)
  ∧ (Alert "Delete failed." ∈ run.1
     ↔ confirmed = true ∧ ∃ r, delete_o = Responded r ∧ status r ≠ 200)
  ∧ (rejects run.2 ↔ confirmed = true ∧ ∃ e, delete_o = Failed e)
  ∧ (rejects run.2 → ∀ msg, Alert msg ∉ run.1).
Proof.
  cbv zeta.
  set (req := mkRequest "DELETE"
                (API_BASE_URL +:+ "/artifacts/" +:+ param_text artifactType
                   +:+ "/" +:+ param_text artifactId) [] None).
  set (ask := Confirm "Are you ABSOLUTELY sure? This cannot be undone."
              : Effect number).
  assert (Hrun :
    deleteArtifact confirmed delete_o artifactType artifactId =
      match confirmed, delete_o with
      | false, _ => ([ask], Fulfilled tt)
      | true, Failed e => ([ask; Fetch req], Rejected e)
      | true, Responded r =>
          if status r =? 200
          then ([ask; Fetch req; Alert "Artifact deleted permanently.";
                 Navigate "/home.html"], Fulfilled tt)
          else ([ask; Fetch req; Alert "Delete failed."], Fulfilled tt)
      end).
  { unfold deleteArtifact, bind, emit, lift, ret.
    destruct confirmed; [| reflexivity].
    destruct delete_o as [r | e]; [| reflexivity].
    cbn [negb]. by destruct (status r =? 200). }
  rewrite Hrun. clear Hrun.
  destruct confirmed; [destruct delete_o as [r | e] |].
  - destruct (Z.eqb_spec (status r) 200) as [Hst | Hst]; cbn [fst snd rejects].
    + split; [reflexivity |]. split; [| split; [| split]].
      * split; [eauto | intros _; rewrite !elem_of_cons; tauto].
      * split; [| intros [_ (r' & [= <-] & Hr)]; contradiction].
        intros Hin.
        repeat (apply elem_of_cons in Hin as [Hin | Hin]; [discriminate Hin |]).
        by apply elem_of_nil in Hin.
      * split; [intros [] | intros [_ (e & He)]; discriminate He].
      * intros [].
    + split; [reflexivity |]. split; [| split; [| split]].
      * split; [| intros [_ (r' & [= <-] & Hr)]; contradiction].
        intros Hin.
        repeat (apply elem_of_cons in Hin as [Hin | Hin]; [discriminate Hin |]).
        by apply elem_of_nil in Hin.
      * split; [eauto | intros _; rewrite !elem_of_cons; tauto].
      * split; [intros [] | intros [_ (e & He)]; discriminate He].
      * intros [].
  - cbn [fst snd rejects]. split; [reflexivity |]. split; [| split; [| split]].
    + split; [| intros [_ (r & Hr & _)]; discriminate Hr].
      intros Hin.
      repeat (apply elem_of_cons in Hin as [Hin | Hin]; [discriminate Hin |]).
      by apply elem_of_nil in Hin.
    + split; [| intros [_ (r & Hr & _)]; discriminate Hr].
      intros Hin.
      repeat (apply elem_of_cons in Hin as [Hin | Hin]; [discriminate Hin |]).
      by apply elem_of_nil in Hin.
    + split; eauto.
    + intros _ msg Hin.
      repeat (apply elem_of_cons in Hin as [Hin | Hin]; [discriminate Hin |]).
      by apply elem_of_nil in Hin.
  - cbn [fst snd rejects]. split; [reflexivity |]. split; [| split; [| split]].
    + split; [| intros [Hc _]; discriminate Hc].
      intros Hin.
      repeat (apply elem_of_cons in Hin as [Hin | Hin]; [discriminate Hin |]).
      by apply elem_of_nil in Hin.
    + split; [| intros [Hc _]; discriminate Hc].
      intros Hin.
      repeat (apply elem_of_cons in Hin as [Hin | Hin]; [discriminate Hin |]).
      by apply elem_of_nil in Hin.
    + split; [intros [] | intros [Hc _]; discriminate Hc].
    + intros [].
Qed.

Lemma rows_subscore_rows (props : list (string * JSValue number)) (s : string) :
  s ∈ rows (subscore_rows props)
  ↔ ∃ key v, (key, JNumber v) ∈ props ∧ key ≠ "net_score"
             ∧ (∀ p, key ≠ p +:+ "_latency")
             ∧ s = key +:+ ": " +:+ Number_toString v.
Proof.
  assert (Hlat : ∀ key, endsWith key "_latency" = false
                        ↔ ∀ p, key ≠ p +:+ "_latency").
  { intros key. rewrite <- not_true_iff_false, endsWith_spec. split.
    - intros Hno p ->. apply Hno. by exists p.
    - intros Hno [p ->]. by apply (Hno p). }
  induction props as [| [key value] props IH].
  - cbn. rewrite elem_of_nil. split; [done |].
    intros (key & v & Hin & _). by apply elem_of_nil in Hin.
  - assert (Hskip : s ∈ rows (subscore_rows props) →
      ∃ key0 v, (key0, JNumber v) ∈ (key, value) :: props ∧ key0 ≠ "net_score"
                ∧ (∀ p, key0 ≠ p +:+ "_latency")
                ∧ s = key0 +:+ ": " +:+ Number_toString v).
    { intros Hin. apply IH in Hin as (k & v & Hk & Hrest).
      exists k, v. split; [by right | exact Hrest]. }
    assert (Hback : ∀ key0 v,
      (key0, JNumber v) ∈ props → key0 ≠ "net_score" →
      (∀ p, key0 ≠ p +:+ "_latency") →
      s = key0 +:+ ": " +:+ Number_toString v →
      s ∈ rows (subscore_rows props)).
    { intros k v Hk Hnet Hl Hs. apply IH. by exists k, v. }
    cbn [subscore_rows].
    destruct value as [| | b | n | str | elems | fields];
      try (split; [exact Hskip |];
           intros (k & v & Hin & Hnet & Hl & Hs);
           apply elem_of_cons in Hin as [[= _ ?] | Hin];
           by apply (Hback k v)).
    destruct (String.eqb_spec key "net_score") as [-> | Hnet]; cbn [negb andb].
    + split; [exact Hskip |].
      intros (k & v & Hin & Hk & Hl & Hs).
      apply elem_of_cons in Hin as [[= -> _] | Hin];
        [done | by apply (Hback k v)].
    + destruct (endsWith key "_latency") eqn:Hends.
      * split; [exact Hskip |].
        intros (k & v & Hin & Hk & Hl & Hs).
        apply elem_of_cons in Hin as [[= -> _] | Hin];
          [| by apply (Hback k v)].
        apply Hlat in Hl. congruence.
      * cbn [negb andb].
        change (rows (AppendRow (key +:+ ": " +:+ Number_toString n)
                        :: subscore_rows props))
          with ((key +:+ ": " +:+ Number_toString n)
                  :: rows (subscore_rows props)).
        rewrite elem_of_cons. split.
        -- intros [-> | Hin]; [| by apply Hskip].
           exists key, n. split; [by left |]. split; [exact Hnet |].
           split; [by apply Hlat | reflexivity].
        -- intros (k & v & Hin & Hk & Hl & Hs).
           apply elem_of_cons in Hin as [[= -> ->] | Hin];
             [by left | right; by apply (Hback k v)].
Qed.

Lemma loadReadme_quiet readme_o (repoUrl : JSValue number) :
  rows (loadReadme readme_o repoUrl).1 = []
  ∧ texts "netScore" (loadReadme readme_o repoUrl).1 = []
  ∧ texts "artifactName" (loadReadme readme_o repoUrl).1 = [].
Proof.
  rewrite loadReadme_shape.
  destruct (truthy repoUrl); [| done].
  by destruct (ToString repoUrl).
Qed.

Lemma loadReadme_requests readme_o (repoUrl : JSValue number) :
  requests (loadReadme readme_o repoUrl).1 =
    if truthy repoUrl then
      match ToString repoUrl with
      | Fulfilled url =>
          [mkRequest "GET" (url +:+ "/raw/main/README.md") [] None]
      | Rejected _ => []
      end
    else [].
Proof.
  rewrite loadReadme_shape.
  destruct (truthy repoUrl); [| done].
  by destruct (ToString repoUrl).
Qed.

(** The function up to the [README] section, once the metadata is loaded
    and the name has been shown, for an artifact that is not a model. *)
Lemma loadArtifact_not_model_run meta_o rating_o readme_o
    artifactType artifactId (meta : JSValue number) (name_text : string) :
  is_model artifactType = false →
  App.sub_request meta_o = Fulfilled meta → nullish meta = false →
  ToString (js_or (opt_member (Get meta "metadata") "name")
              (JString "Unknown Artifact")) = Fulfilled name_text →
  (loadArtifact toFixed3 meta_o rating_o readme_o artifactType artifactId).1 =
    [Fetch (mkRequest "GET" (metadata_url artifactType artifactId) [] None);
     SetText "artifactName" name_text;
     SetText "netScore" "N/A";
     SetHTML "subscores" (no_rating_html artifactType);
     SetDownload (opt_member (Get meta "data") "download_url")]
      ++ (loadReadme readme_o (opt_member (Get meta "data") "url")).1
      ++ match (loadReadme readme_o (opt_member (Get meta "data") "url")).2
         with
         | Fulfilled _ => []
         | Rejected _ => [ConsoleError "Failed to load artifact:"]
         end.
Proof.
  intros Hnot Hmeta Hnull Hname.
  unfold loadArtifact, member, try_catch, bind, emit, lift.
  rewrite Hmeta, Hnot. cbn -[String.append loadReadme]. rewrite Hnull.
  cbn -[String.append loadReadme]. rewrite Hname.
  cbn -[String.append loadReadme].
  destruct (loadReadme readme_o (opt_member (Get meta "data") "url"))
    as [effects [[] | e]]; cbn -[String.append]; by rewrite ?app_nil_r.
Qed.

(** The same for a model whose rating payload has a numeric [net_score]. *)
Lemma loadArtifact_model_run meta_o rating_o readme_o artifactId
    (meta : JSValue number) (name_text : string)
    (props : list (string * JSValue number)) (n : number) :
  App.sub_request meta_o = Fulfilled meta → nullish meta = false →
  ToString (js_or (opt_member (Get meta "metadata") "name")
              (JString "Unknown Artifact")) = Fulfilled name_text →
  App.sub_request rating_o = Fulfilled (JObject props) →
  assoc "net_score" props = JNumber n →
  (loadArtifact toFixed3 meta_o rating_o readme_o (Some "model") artifactId).1
  = [Fetch (mkRequest "GET" (metadata_url (Some "model") artifactId) [] None);
     SetText "artifactName" name_text;
     Fetch (mkRequest "GET" (rating_url (Some "model") artifactId) [] None);
     SetText "netScore" (toFixed3 n); SetHTML "subscores" ""]
      ++ subscore_rows props
      ++ [SetDownload (opt_member (Get meta "data") "download_url")]
      ++ (loadReadme readme_o (opt_member (Get meta "data") "url")).1
      ++ match (loadReadme readme_o (opt_member (Get meta "data") "url")).2
         with
         | Fulfilled _ => []
         | Rejected _ => [ConsoleError "Failed to load artifact:"]
         end.
Proof.
  intros Hmeta Hnull Hname Hrating Hnet.
  unfold loadArtifact, show_rating, member, try_catch, bind, emit, lift.
  rewrite Hmeta, Hrating.
  cbn -[String.append loadReadme subscore_rows]. rewrite Hnull.
  cbn -[String.append loadReadme subscore_rows]. rewrite Hname.
  cbn -[String.append loadReadme subscore_rows]. rewrite Hnet.
  cbn -[String.append loadReadme subscore_rows].
  destruct (loadReadme readme_o (opt_member (Get meta "data") "url"))
    as [effects [[] | e]]; cbn -[String.append subscore_rows];
    by rewrite <- ?app_assoc, ?app_nil_r.
Qed.

(** X23: [loadArtifact] never rejects and always starts with the metadata
    request [GET /artifacts/{type}/{id}].  When that request gets no answer,
    or a body that is not JSON, or the JSON [null], nothing else happens but
    a console message: the page shows no name, no score, no README and no
    error. *)
Theorem loadArtifact_metadata meta_o rating_o readme_o
    artifactType artifactId :
  let run :=
    loadArtifact toFixed3 meta_o rating_o readme_o artifactType artifactId in
  run.2 = Fulfilled tt
  ∧ ∃ rest,
      run.1 =
        Fetch (mkRequest "GET"
                 (API_BASE_URL +:+ "/artifacts/" +:+ param_text artifactType
                    +:+ "/" +:+ param_text artifactId) [] None) :: rest
      ∧ (rejects (App.sub_request meta_o)
         ∨ App.sub_request meta_o = Fulfilled JNull →
         rest = [ConsoleError "Failed to load artifact:"]).
Proof.
  cbv zeta. split.
  - unfold loadArtifact, try_catch.
    destruct (_ ;; _)%js as [effects [[] | e]]; reflexivity.
  - unfold loadArtifact. unfold bind at 1. unfold emit at 1.
    destruct (let* meta := _ in _)%js as [effects result] eqn:Hbody.
    unfold try_catch. cbn -[String.append].
    destruct result as [[] | e]; eexists; (split; [reflexivity |]);
      intros Hfail; revert Hbody;
      destruct Hfail as [Hrej | ->];
      try (destruct (App.sub_request meta_o); [destruct Hrej |]);
      cbn; intros [= <-]; reflexivity.
Qed.

(** X24: for an artifact whose type is not exactly ["model"] (a dataset, a
    code artifact, a missing parameter) no rating is requested: once the
    metadata is loaded and its name, which has a string form, is shown, the
    score reads [N/A] and no sub-score row is added; the only requests are
    the metadata request and, when the metadata has a repository URL with a
    string form, the README request.  A repository URL that has no string
    form makes [loadReadme] reject: no README is requested and the failure
    goes to the console. *)
Theorem loadArtifact_not_model meta_o rating_o readme_o
    artifactType artifactId (meta : JSValue number) (name_text : string) :
  artifactType ≠ Some "model" →
  App.sub_request meta_o = Fulfilled meta → nullish meta = false →
  ToString (js_or (opt_member (Get meta "metadata") "name")
              (JString "Unknown Artifact")) = Fulfilled name_text →
  let run :=
    loadArtifact toFixed3 meta_o rating_o readme_o artifactType artifactId in
  let repoUrl := opt_member (Get meta "data") "url" in
  texts "netScore" run.1 = ["N/A"]
  ∧ rows run.1 = []
  ∧ texts "artifactName" run.1 = [name_text]
  ∧ (truthy repoUrl = false →
     requests run.1 =
       [mkRequest "GET" (metadata_url artifactType artifactId) [] None])
  ∧ (∀ url, truthy repoUrl = true → ToString repoUrl = Fulfilled url →
     requests run.1 =
       [mkRequest "GET" (metadata_url artifactType artifactId) [] None;
        mkRequest "GET" (url +:+ "/raw/main/README.md") [] None])
  ∧ (truthy repoUrl = true → rejects (ToString repoUrl) →
     requests run.1 =
       [mkRequest "GET" (metadata_url artifactType artifactId) [] None]
     ∧ texts "readmeContent" run.1 = []
     ∧ ConsoleError "Failed to load artifact:" ∈ run.1).
Proof.
  intros Htype Hmeta Hnull Hname. cbv zeta.
  assert (Hnot : is_model artifactType = false).
  { destruct artifactType as [t |]; [| reflexivity]. cbn.
    apply String.eqb_neq. congruence. }
  rewrite (loadArtifact_not_model_run meta_o rating_o readme_o artifactType
             artifactId meta name_text Hnot Hmeta Hnull Hname).
  rewrite loadReadme_shape.
  destruct (truthy (opt_member (Get meta "data") "url"));
    [destruct (ToString (opt_member (Get meta "data") "url")) as [url | e] |];
    cbn -[String.append].
  - do 3 (split; [reflexivity |]). split; [discriminate |].
    split; [by intros url' _ [= <-] | intros _ []].
  - do 3 (split; [reflexivity |]). split; [discriminate |].
    split; [intros url _ Hurl; discriminate Hurl |].
    intros _ _. do 2 (split; [reflexivity |]).
    rewrite !elem_of_cons. tauto.
  - do 4 (split; [reflexivity |]).
    split; [intros url Hurl; discriminate Hurl | discriminate].
Qed.

(** X25: for a model whose metadata is loaded, whose name has a string form
    and whose rating payload is an object with a numeric [net_score], the
    score shown is [net_score.toFixed(3)] and the sub-score rows are exactly
    the rows [key: value] of the numeric fields other than [net_score] whose
    name does not end in [_latency]; fields that are not numbers are never
    listed. *)
Theorem loadArtifact_model_scores meta_o rating_o readme_o
    artifactType artifactId (meta : JSValue number) (name_text : string)
    (props : list (string * JSValue number)) (n : number) :
  artifactType = Some "model" →
  App.sub_request meta_o = Fulfilled meta → nullish meta = false →
  ToString (js_or (opt_member (Get meta "metadata") "name")
              (JString "Unknown Artifact")) = Fulfilled name_text →
  App.sub_request rating_o = Fulfilled (JObject props) →
  assoc "net_score" props = JNumber n →
  let run :=
    loadArtifact toFixed3 meta_o rating_o readme_o artifactType artifactId in
  texts "netScore" run.1 = [toFixed3 n]
  ∧ texts "artifactName" run.1 = [name_text]
  ∧ (∀ s, s ∈ rows run.1
          ↔ ∃ key v, (key, JNumber v) ∈ props ∧ key ≠ "net_score"
                     ∧ (∀ p, key ≠ p +:+ "_latency")
                     ∧ s = key +:+ ": " +:+ Number_toString v)
  ∧ take 2 (requests run.1) =
      [mkRequest "GET" (API_BASE_URL +:+ "/artifacts/model/"
                          +:+ param_text artifactId) [] None;
       mkRequest "GET" (API_BASE_URL +:+ "/artifact/model/"
                          +:+ param_text artifactId +:+ "/rate") [] None].
Proof.
  intros -> Hmeta Hnull Hname Hrating Hnet. cbv zeta.
  destruct (loadReadme_quiet readme_o (opt_member (Get meta "data") "url"))
    as (Hrows & Hscore & Hnames).
  rewrite (loadArtifact_model_run meta_o rating_o readme_o artifactId meta
             name_text props n Hmeta Hnull Hname Hrating Hnet).
  set (caught := match (loadReadme readme_o
                          (opt_member (Get meta "data") "url")).2 with
                 | Fulfilled _ => []
                 | Rejected _ => [ConsoleError "Failed to load artifact:"]
                 end).
  assert (Hcaught : rows caught = [] ∧ texts "netScore" caught = []
                    ∧ texts "artifactName" caught = []).
  { subst caught.
    by destruct (loadReadme readme_o (opt_member (Get meta "data") "url")).2. }
  destruct Hcaught as (Hcrows & Hcscore & Hcnames).
  assert (Hnone : ∀ el l, omap (λ ev : Effect number,
      match ev with
      | SetText el' s => if String.eqb el' el then Some s else None
      | _ => None
      end) (subscore_rows l) = []).
  { intros el. induction l as [| [key value] l IH]; [reflexivity |].
    cbn [subscore_rows]. destruct value; try exact IH.
    destruct (negb _ && negb _); [exact IH | exact IH]. }
  split; [| split; [| split]].
  - unfold texts in *. rewrite !omap_app, Hscore, Hcscore, Hnone. reflexivity.
  - unfold texts in *. rewrite !omap_app, Hnames, Hcnames, Hnone. reflexivity.
  - intros s. unfold rows in *. rewrite !omap_app, Hrows, Hcrows.
    cbn [omap app]. rewrite !app_nil_r. apply rows_subscore_rows.
  - reflexivity.
Qed.

(** X26: for a model whose metadata is loaded but whose rating cannot be
    shown (the rating request gets no answer or a body that is not JSON, or
    the payload is [null] or has no numeric [net_score]), the function stops
    there: the name, which has a string form, is shown, the failure only
    goes to the console, and neither the download button nor the README is
    set up. *)
Theorem loadArtifact_rating_failure meta_o rating_o readme_o
    artifactType artifactId (meta : JSValue number) (name_text : string) :
  artifactType = Some "model" →
  App.sub_request meta_o = Fulfilled meta → nullish meta = false →
  ToString (js_or (opt_member (Get meta "metadata") "name")
              (JString "Unknown Artifact")) = Fulfilled name_text →
  (∀ rating n, App.sub_request rating_o = Fulfilled rating →
               nullish rating = false → Get rating "net_score" ≠ JNumber n) →
  loadArtifact toFixed3 meta_o rating_o readme_o artifactType artifactId =
    ([Fetch (mkRequest "GET" (metadata_url artifactType artifactId) [] None);
      SetText "artifactName" name_text;
      Fetch (mkRequest "GET" (rating_url artifactType artifactId) [] None);
      ConsoleError "Failed to load artifact:"],
     Fulfilled tt).
Proof.
  intros -> Hmeta Hnull Hname Hbad.
  unfold loadArtifact, show_rating, member, try_catch, bind, emit, lift.
  rewrite Hmeta. cbn -[String.append loadReadme subscore_rows]. rewrite Hnull.
  cbn -[String.append loadReadme subscore_rows]. rewrite Hname.
  cbn -[String.append loadReadme subscore_rows].
  destruct (App.sub_request rating_o) as [rating | e]; [| reflexivity].
  cbn -[String.append loadReadme subscore_rows].
  destruct (nullish rating) eqn:Hrnull; [reflexivity |].
  specialize (Hbad rating).
  destruct (Get rating "net_score") as [| | b | n | str | elems | fields];
    try reflexivity.
  destruct (Hbad n eq_refl Hrnull eq_refl).
Qed.
End Page.

Lemma loadArtifact_not_model_witness :
  texts "netScore"
    (loadArtifact MoreSamples.toFixed3 (Samples.json_ok MoreSamples.meta_json)
       Samples.unreachable Samples.unreachable
       (Some "dataset") (Some "d7")).1 = ["N/A"].
Proof.
  apply (loadArtifact_not_model MoreSamples.toFixed3
           (Samples.json_ok MoreSamples.meta_json) Samples.unreachable
           Samples.unreachable (Some "dataset") (Some "d7")
           MoreSamples.meta_json "bert");
    [discriminate | reflexivity | reflexivity | reflexivity].
Defined.

Lemma loadArtifact_model_scores_witness :
  let run :=
    loadArtifact MoreSamples.toFixed3 (Samples.json_ok MoreSamples.meta_json)
      (Samples.json_ok MoreSamples.rating_json) Samples.unreachable
      (Some "model") (Some "a1") in
  rows run.1 = ["license: 1"] ∧ texts "netScore" run.1 = ["1.000"].
Proof.
  split; [reflexivity |].
  apply (loadArtifact_model_scores MoreSamples.toFixed3
           (Samples.json_ok MoreSamples.meta_json)
           (Samples.json_ok MoreSamples.rating_json) Samples.unreachable
           (Some "model") (Some "a1") MoreSamples.meta_json
           "bert"
           [("net_score", JNumber 1); ("license", JNumber 1);
            ("license_latency", JNumber 20); ("category", JString "MODEL")] 1);
    reflexivity.
Defined.

Lemma loadArtifact_rating_failure_witness :
  texts "readmeContent"
    (loadArtifact MoreSamples.toFixed3 (Samples.json_ok MoreSamples.meta_json)
       Samples.unreachable (Samples.json_ok (JString "# bert"))
       (Some "model") (Some "a1")).1 = [].
Proof.
  rewrite (loadArtifact_rating_failure MoreSamples.toFixed3
             (Samples.json_ok MoreSamples.meta_json) Samples.unreachable
             (Samples.json_ok (JString "# bert")) (Some "model") (Some "a1")
             MoreSamples.meta_json "bert");
    [reflexivity | reflexivity | reflexivity | reflexivity | reflexivity |].
  intros rating n Hr. discriminate Hr.
Defined.

End ArtifactMore.
